(** * Table mutations of the restaurant GraphQL API

    A shallow embedding of [graphql/schema/Table/mutations.ts]: the six
    resolvers [addTable], [editTable], [deleteTable],
    [toggleTableReservation], [addOrderToTable] and [movePositionTable],
    written against a model of the persistence client they call, and the
    properties of the specification proved about them. *)

From Stdlib Require Import ZArith List String Bool Lia PrimFloat DecimalString.
Import ListNotations.
Local Open Scope string_scope.

(** ** Values of the host language *)

(** An optional GraphQL argument reaches the resolver as [undefined] (left
    out), as [null] (given as null) or as a value. *)
Inductive Optional (A : Type) : Type :=
| undefined
| null
| val (a : A).
Arguments undefined {A}.
Arguments null {A}.
Arguments val {A} a.

(** [x ?? d] with a value on the right. *)
Definition coalesce {A : Type} (x : Optional A) (d : A) : A :=
  match x with
  | val a => a
  | _ => d
  end.

(** [x ?? undefined]: what is left is a value or [undefined] ([None]). *)
Definition orUndefined {A : Type} (x : Optional A) : option A :=
  match x with
  | val a => Some a
  | _ => None
  end.

(** [l.includes(s)] on an array of strings. *)
Definition includes (l : list string) (s : string) : bool :=
  existsb (String.eqb s) l.

(** A number printed inside a template literal. *)
Definition numberToString (n : Z) : string :=
  NilZero.string_of_int (Z.to_int n).

(** A value of the JSON scalar. *)
#[local] Unset Elimination Schemes.
Inductive JSON : Type :=
| JNull
| JBool (b : bool)
| JNumber (n : float)
| JString (s : string)
| JArray (items : list JSON)
| JObject (members : list (string * JSON)).
#[local] Set Elimination Schemes.

(** ** Users and roles ([graphql/schema/User/enum.ts]) *)

Inductive Role : Type := USER | ADMIN | DELIVERY | WAITER | CHEF | MANAGER.

Definition roleName (r : Role) : string :=
  match r with
  | USER => "USER"
  | ADMIN => "ADMIN"
  | DELIVERY => "DELIVERY"
  | WAITER => "WAITER"
  | CHEF => "CHEF"
  | MANAGER => "MANAGER"
  end.

(** The session user; the resolvers read nothing of it but its role, which
    the session may lack ([None]). *)
Record User : Type := mkUser { role : option Role }.

Record Context : Type := mkContext { user : option User }.

(** [context.user?.role ?? ""] *)
Definition roleOrEmpty (u : User) : string :=
  match role u with
  | Some r => roleName r
  | None => ""
  end.

(** [context.user.role !== s] *)
Definition roleIsNot (u : User) (s : string) : bool :=
  match role u with
  | Some r => negb (String.eqb (roleName r) s)
  | None => true
  end.

(** ** Records *)

Record Table : Type := mkTable {
  id : string;
  tableNumber : Z;
  diners : Z;
  position : option JSON;
  areaId : string;
  reserved : bool;
  specialRequests : list string
}.

Module Order.
Record t : Type := mk {
  id : string;
  orderNumber : string;
  cart : JSON;
  userName : string;
  userEmail : string;
  tableId : string;
  status : string;
  serviceFee : float;
  note : option string;
  discount : option float;
  total : float;
  paymentToken : option string
}.
End Order.

(** ** Arguments of the mutations *)

Module AddTable.
Record Args : Type := mk {
  tableNumber : Z;
  diners : Z;
  position : Optional JSON;
  areaId : string;
  reserved : Optional bool;
  specialRequests : Optional (list string)
}.
End AddTable.

Module EditTable.
Record Args : Type := mk {
  id : string;
  tableNumber : Optional Z;
  diners : Optional Z;
  reserved : Optional bool;
  position : Optional JSON;
  specialRequests : Optional (list string);
  areaId : Optional string
}.
End EditTable.

Module DeleteTable.
Record Args : Type := mk { id : string }.
End DeleteTable.

Module ToggleTableReservation.
Record Args : Type := mk { id : string; reserved : bool }.
End ToggleTableReservation.

Module AddOrderToTable.
Record Args : Type := mk {
  tableId : string;
  orderNumber : string;
  cart : JSON;
  userName : string;
  userEmail : string;
  serviceFee : float;
  note : Optional string;
  discount : Optional float;
  total : float;
  paymentToken : Optional string
}.
End AddOrderToTable.

Module MovePositionTable.
Record Args : Type := mk { tableNumber : Z; position : JSON }.
End MovePositionTable.

(** ** Errors and the database *)

(** What a resolver can end with instead of a result: an error it throws
    itself, or one the persistence client throws and it lets through. *)
Inductive Error : Type :=
| GraphQLError (message : string)
| PrismaClientKnownRequestError (code : string).

(** The calls made to the persistence client, in the order they are made. *)
Inductive PrismaCall : Type :=
| TableFindFirst
| TableFindUnique
| TableCreate
| TableUpdate
| TableDelete
| OrderCreate.

Definition isWrite (c : PrismaCall) : bool :=
  match c with
  | TableFindFirst | TableFindUnique => false
  | TableCreate | TableUpdate | TableDelete | OrderCreate => true
  end.

(** The rows of the two models, oldest first, and the trace of calls. *)
Record Db : Type := mkDb {
  tables : list Table;
  orders : list Order.t;
  calls : list PrismaCall
}.

Definition called (c : PrismaCall) (db : Db) : Db :=
  mkDb (tables db) (orders db) (calls db ++ [c]).

(** ** The monad of a resolver

    An async resolver reads and writes the database and either returns or
    throws; what it wrote before it threw stays written. *)
Definition Async (A : Type) : Type := Db -> (Error + A) * Db.

Definition ret {A : Type} (a : A) : Async A := fun db => (inr a, db).

Definition throw {A : Type} (e : Error) : Async A := fun db => (inl e, db).

Definition bind {A B : Type} (m : Async A) (k : A -> Async B) : Async B :=
  fun db =>
    match m db with
    | (inr a, db') => k a db'
    | (inl e, db') => (inl e, db')
    end.

Declare Scope async_scope.
Delimit Scope async_scope with async.
Notation "'await' x <- m ;; k" := (bind m (fun x => k))
  (at level 100, x name, m at next level, right associativity) : async_scope.
Local Open Scope async_scope.

(** ** The persistence client

    Modelled from the spec: the client [prisma] of [@/lib/prisma] and the
    schema behind it are not among the sources. It is the persistence
    collaborator of the specification: create, read, update and delete
    keyed by id or by the unique field [tableNumber], returning the full
    record or a not-found indication (a null from a find, the request
    error P2025 from an update or a delete), under a uniqueness constraint
    on [Table.tableNumber] and on no other field (request error P2002).
    What the schema alone fixes is a parameter: the ids given to new rows,
    the [position] of a table created without one, and what becomes of
    the orders of a deleted table. *)

Inductive TableWhereUniqueInput : Type :=
| WhereId (i : string)
| WhereTableNumber (n : Z).

Definition matches (w : TableWhereUniqueInput) (t : Table) : bool :=
  match w with
  | WhereId i => String.eqb (id t) i
  | WhereTableNumber n => Z.eqb (tableNumber t) n
  end.

Record TableCreateInput : Type := mkTableCreateInput {
  create_tableNumber : Z;
  create_diners : Z;
  create_position : Optional JSON;
  create_areaId : string;
  create_reserved : bool;
  create_specialRequests : list string
}.

(** In the data of an update a field is a value or [undefined] ([None]);
    an undefined field is not written. *)
Record TableUpdateInput : Type := mkTableUpdateInput {
  update_tableNumber : option Z;
  update_diners : option Z;
  update_reserved : option bool;
  update_position : option JSON;
  update_specialRequests : option (list string);
  update_areaId : option string
}.

Record OrderCreateInput : Type := mkOrderCreateInput {
  create_orderNumber : string;
  create_cart : JSON;
  create_userName : string;
  create_userEmail : string;
  create_tableId : string;
  create_status : string;
  create_serviceFee : float;
  create_note : option string;
  create_discount : option float;
  create_total : float;
  create_paymentToken : option string
}.

Definition written {A : Type} (new : option A) (old : A) : A :=
  match new with
  | Some a => a
  | None => old
  end.

Definition applyUpdate (data : TableUpdateInput) (t : Table) : Table :=
  mkTable (id t)
    (written (update_tableNumber data) (tableNumber t))
    (written (update_diners data) (diners t))
    (written (option_map Some (update_position data)) (position t))
    (written (update_areaId data) (areaId t))
    (written (update_reserved data) (reserved t))
    (written (update_specialRequests data) (specialRequests t)).

(** The first row that satisfies [p] replaced by [t'], or taken out. *)
Fixpoint replaceFirst (p : Table -> bool) (t' : Table) (l : list Table)
  : list Table :=
  match l with
  | [] => []
  | t :: rest => if p t then t' :: rest else t :: replaceFirst p t' rest
  end.

Fixpoint removeFirst (p : Table -> bool) (l : list Table) : list Table :=
  match l with
  | [] => []
  | t :: rest => if p t then rest else t :: removeFirst p rest
  end.

Definition hasTableNumber (n : Z) (l : list Table) : bool :=
  existsb (fun t => Z.eqb (tableNumber t) n) l.

Definition P2002 : Error := PrismaClientKnownRequestError "P2002".
Definition P2003 : Error := PrismaClientKnownRequestError "P2003".
Definition P2025 : Error := PrismaClientKnownRequestError "P2025".

Section Mutations.

(** The id the schema's default gives to the next row. *)
Variable newId : Db -> string.

(** The [position] the schema gives to a table created without one. *)
Variable positionDefault : option JSON.

(** The orders left once the table with the given id is deleted, or
    [None] where the relation forbids the deletion. *)
Variable onDeleteTable : string -> list Order.t -> option (list Order.t).

(** Modelled from the spec: [prisma.table.findFirst], the oldest table
    with the given [tableNumber], or null. *)
Definition table_findFirst (n : Z) : Async (option Table) :=
  fun db =>
    (inr (find (fun t => Z.eqb (tableNumber t) n) (tables db)),
     called TableFindFirst db).

(** Modelled from the spec: [prisma.table.findUnique], the table with
    the given id or [tableNumber], or null. *)
Definition table_findUnique (w : TableWhereUniqueInput)
  : Async (option Table) :=
  fun db => (inr (find (matches w) (tables db)), called TableFindUnique db).

(** Modelled from the spec: [prisma.table.create], which adds a row and
    returns it, unless the [tableNumber] is taken. *)
Definition table_create (data : TableCreateInput) : Async Table :=
  fun db =>
    let db1 := called TableCreate db in
    if hasTableNumber (create_tableNumber data) (tables db) then
      (inl P2002, db1)
    else
      let t := mkTable (newId db)
                 (create_tableNumber data)
                 (create_diners data)
                 (match create_position data with
                  | val p => Some p
                  | _ => positionDefault
                  end)
                 (create_areaId data)
                 (create_reserved data)
                 (create_specialRequests data) in
      (inr t, mkDb (tables db ++ [t]) (orders db) (calls db1)).

(** Modelled from the spec: [prisma.table.update], which writes the
    given fields of the row found and returns it; not-found when there
    is no such row, and a conflict when another row has the
    [tableNumber] written. *)
Definition table_update (w : TableWhereUniqueInput)
  (data : TableUpdateInput) : Async Table :=
  fun db =>
    let db1 := called TableUpdate db in
    match find (matches w) (tables db) with
    | None => (inl P2025, db1)
    | Some t =>
        let taken :=
          match update_tableNumber data with
          | Some n => hasTableNumber n (removeFirst (matches w) (tables db))
          | None => false
          end in
        if taken then (inl P2002, db1)
        else
          let t' := applyUpdate data t in
          (inr t',
           mkDb (replaceFirst (matches w) t' (tables db)) (orders db)
             (calls db1))
    end.

(** Modelled from the spec: [prisma.table.delete], which removes the row
    found and returns it; not-found when there is no such row. *)
Definition table_delete (w : TableWhereUniqueInput) : Async Table :=
  fun db =>
    let db1 := called TableDelete db in
    match find (matches w) (tables db) with
    | None => (inl P2025, db1)
    | Some t =>
        match onDeleteTable (id t) (orders db) with
        | None => (inl P2003, db1)
        | Some os =>
            (inr t, mkDb (removeFirst (matches w) (tables db)) os (calls db1))
        end
    end.

(** Modelled from the spec: [prisma.order.create], which adds a row and
    returns it. *)
Definition order_create (data : OrderCreateInput) : Async Order.t :=
  fun db =>
    let o := Order.mk (newId db)
               (create_orderNumber data)
               (create_cart data)
               (create_userName data)
               (create_userEmail data)
               (create_tableId data)
               (create_status data)
               (create_serviceFee data)
               (create_note data)
               (create_discount data)
               (create_total data)
               (create_paymentToken data) in
    (inr o, mkDb (tables db) (orders db ++ [o]) (calls db ++ [OrderCreate])).

(** ** The resolvers *)

Definition addTable (context : Context) (args : AddTable.Args)
  : Async Table :=
  match user context with
  | None => throw (GraphQLError "You must be logged in to perform this action")
  | Some u =>
      if negb (includes ["ADMIN"; "MANAGER"] (roleOrEmpty u)) then
        throw (GraphQLError "You are not authorized to add tables")
      else
        await existing <- table_findFirst (AddTable.tableNumber args) ;;
        match existing with
        | Some _ =>
            throw (GraphQLError "A table with this tableNumber already exists")
        | None =>
            await newTable <-
              table_create
                (mkTableCreateInput
                   (AddTable.tableNumber args)
                   (AddTable.diners args)
                   (AddTable.position args)
                   (AddTable.areaId args)
                   (coalesce (AddTable.reserved args) false)
                   (coalesce (AddTable.specialRequests args) [])) ;;
            ret newTable
        end
  end.

Definition editTable (context : Context) (args : EditTable.Args)
  : Async Table :=
  match user context with
  | None => throw (GraphQLError "You must be logged in to perform this action")
  | Some u =>
      if roleIsNot u "ADMIN" then
        throw (GraphQLError "You are not authorized to edit tables")
      else
        await updatedTable <-
          table_update (WhereId (EditTable.id args))
            (mkTableUpdateInput
               (orUndefined (EditTable.tableNumber args))
               (orUndefined (EditTable.diners args))
               (orUndefined (EditTable.reserved args))
               (orUndefined (EditTable.position args))
               (orUndefined (EditTable.specialRequests args))
               (orUndefined (EditTable.areaId args))) ;;
        ret updatedTable
  end.

Definition deleteTable (context : Context) (args : DeleteTable.Args)
  : Async Table :=
  match user context with
  | None => throw (GraphQLError "You must be logged in to perform this action")
  | Some u =>
      if roleIsNot u "ADMIN" then
        throw (GraphQLError "You are not authorized to delete tables")
      else
        await deletedTable <- table_delete (WhereId (DeleteTable.id args)) ;;
        ret deletedTable
  end.

Definition toggleTableReservation (context : Context)
  (args : ToggleTableReservation.Args) : Async Table :=
  match user context with
  | None => throw (GraphQLError "You must be logged in to perform this action")
  | Some u =>
      if roleIsNot u "ADMIN" then
        throw (GraphQLError "You are not authorized to modify reservation status")
      else
        await table <-
          table_findUnique (WhereId (ToggleTableReservation.id args)) ;;
        match table with
        | None => throw (GraphQLError "Table not found")
        | Some _ =>
            await updatedTable <-
              table_update (WhereId (ToggleTableReservation.id args))
                (mkTableUpdateInput None None
                   (Some (ToggleTableReservation.reserved args))
                   None None None) ;;
            ret updatedTable
        end
  end.

Definition addOrderToTable (context : Context)
  (args : AddOrderToTable.Args) : Async Order.t :=
  match user context with
  | None => throw (GraphQLError "You must be logged in to perform this action")
  | Some u =>
      if negb (includes ["ADMIN"; "MANAGER"; "WAITER"] (roleOrEmpty u)) then
        throw (GraphQLError "You are not authorized to add an order to a table")
      else
        await table <-
          table_findUnique (WhereId (AddOrderToTable.tableId args)) ;;
        match table with
        | None => throw (GraphQLError "Table not found")
        | Some _ =>
            await newOrder <-
              order_create
                (mkOrderCreateInput
                   (AddOrderToTable.orderNumber args)
                   (AddOrderToTable.cart args)
                   (AddOrderToTable.userName args)
                   (AddOrderToTable.userEmail args)
                   (AddOrderToTable.tableId args)
                   "PREPARING"
                   (AddOrderToTable.serviceFee args)
                   (orUndefined (AddOrderToTable.note args))
                   (orUndefined (AddOrderToTable.discount args))
                   (AddOrderToTable.total args)
                   (orUndefined (AddOrderToTable.paymentToken args))) ;;
            ret newOrder
        end
  end.

Definition movePositionTable (context : Context)
  (args : MovePositionTable.Args) : Async Table :=
  match user context with
  | None => throw (GraphQLError "You must be logged in to perform this action")
  | Some u =>
      if negb (includes ["ADMIN"; "MANAGER"] (roleOrEmpty u)) then
        throw (GraphQLError "You are not authorized to move the table")
      else
        await table <-
          table_findUnique
            (WhereTableNumber (MovePositionTable.tableNumber args)) ;;
        match table with
        | None =>
            throw (GraphQLError
                     ("Table with tableNumber="
                      ++ numberToString (MovePositionTable.tableNumber args)
                      ++ " not found"))
        | Some _ =>
            await updatedTable <-
              table_update
                (WhereTableNumber (MovePositionTable.tableNumber args))
                (mkTableUpdateInput None None None
                   (Some (MovePositionTable.position args))
                   None None) ;;
            ret updatedTable
        end
  end.

End Mutations.

(** ** The six mutations as one operation *)

Inductive Mutation : Type :=
| AddTableCall (args : AddTable.Args)
| EditTableCall (args : EditTable.Args)
| DeleteTableCall (args : DeleteTable.Args)
| ToggleTableReservationCall (args : ToggleTableReservation.Args)
| AddOrderToTableCall (args : AddOrderToTable.Args)
| MovePositionTableCall (args : MovePositionTable.Args).

Inductive Payload : Type :=
| TablePayload (t : Table)
| OrderPayload (o : Order.t).

Definition payload {A : Type} (f : A -> Payload) (m : Async A)
  : Async Payload :=
  fun db =>
    match m db with
    | (inr a, db') => (inr (f a), db')
    | (inl e, db') => (inl e, db')
    end.

Definition resolve (newId : Db -> string) (positionDefault : option JSON)
  (onDeleteTable : string -> list Order.t -> option (list Order.t))
  (context : Context) (m : Mutation) : Async Payload :=
  match m with
  | AddTableCall args =>
      payload TablePayload (addTable newId positionDefault context args)
  | EditTableCall args => payload TablePayload (editTable context args)
  | DeleteTableCall args =>
      payload TablePayload (deleteTable onDeleteTable context args)
  | ToggleTableReservationCall args =>
      payload TablePayload (toggleTableReservation context args)
  | AddOrderToTableCall args =>
      payload OrderPayload (addOrderToTable newId context args)
  | MovePositionTableCall args =>
      payload TablePayload (movePositionTable context args)
  end.

(** ** The specification's vocabulary *)

(** The table of allowed roles of the specification, per operation. *)
Definition allowedRoles (m : Mutation) : list Role :=
  match m with
  | AddTableCall _ => [ADMIN; MANAGER]
  | EditTableCall _ => [ADMIN]
  | DeleteTableCall _ => [ADMIN]
  | ToggleTableReservationCall _ => [ADMIN]
  | AddOrderToTableCall _ => [ADMIN; MANAGER; WAITER]
  | MovePositionTableCall _ => [ADMIN; MANAGER]
  end.

(** The user has a role, and it is one of [l]. *)
Definition hasRoleIn (u : User) (l : list Role) : Prop :=
  match role u with
  | Some r => In r l
  | None => False
  end.

(** The error taxonomy of the specification. *)
Inductive ErrorKind : Type := Unauthenticated | Forbidden | Conflict | NotFound.

(** The kind of an error, read off what the resolvers and the client
    throw: the resolvers tell their errors apart by message only, the
    client by request error code. *)
Definition errorKind (e : Error) : option ErrorKind :=
  match e with
  | GraphQLError m =>
      if String.eqb m "You must be logged in to perform this action" then
        Some Unauthenticated
      else if prefix "You are not authorized to " m then Some Forbidden
      else if String.eqb m "A table with this tableNumber already exists" then
        Some Conflict
      else if String.eqb m "Table not found" then Some NotFound
      else if prefix "Table with tableNumber=" m then Some NotFound
      else None
  | PrismaClientKnownRequestError c =>
      if String.eqb c "P2002" then Some Conflict
      else if String.eqb c "P2025" then Some NotFound
      else None
  end.

(** The message of each resolver for a user it does not authorize. *)
Definition notAuthorizedMessage (m : Mutation) : string :=
  match m with
  | AddTableCall _ => "You are not authorized to add tables"
  | EditTableCall _ => "You are not authorized to edit tables"
  | DeleteTableCall _ => "You are not authorized to delete tables"
  | ToggleTableReservationCall _ =>
      "You are not authorized to modify reservation status"
  | AddOrderToTableCall _ =>
      "You are not authorized to add an order to a table"
  | MovePositionTableCall _ => "You are not authorized to move the table"
  end.

(** A call got past authentication and authorization: it went on to the
    persistence client, and if it failed, it failed for another reason. *)
Definition pastAuthorization (db : Db) (out : (Error + Payload) * Db) : Prop :=
  (exists c cs, calls (snd out) = (calls db ++ c :: cs)%list) /\
  match fst out with
  | inl e =>
      errorKind e <> Some Unauthenticated /\ errorKind e <> Some Forbidden
  | inr _ => True
  end.

(** An explicit null taken for a field left out. *)
Definition omitNull {A : Type} (x : Optional A) : Optional A :=
  match x with
  | null => undefined
  | _ => x
  end.

Definition omitNulls (args : EditTable.Args) : EditTable.Args :=
  EditTable.mk (EditTable.id args)
    (omitNull (EditTable.tableNumber args))
    (omitNull (EditTable.diners args))
    (omitNull (EditTable.reserved args))
    (omitNull (EditTable.position args))
    (omitNull (EditTable.specialRequests args))
    (omitNull (EditTable.areaId args)).

(** The table [t] with [reserved] set to [b] and nothing else changed. *)
Definition withReserved (b : bool) (t : Table) : Table :=
  mkTable (id t) (tableNumber t) (diners t) (position t) (areaId t) b
    (specialRequests t).

(** ** Sample data *)

Definition sampleId (db : Db) : string :=
  "row" ++ numberToString (Z.of_nat (List.length (tables db) + List.length (orders db))).

Definition keepOrders (_ : string) (os : list Order.t)
  : option (list Order.t) := Some os.

Definition xy (x y : float) : JSON :=
  JObject [("x", JNumber x); ("y", JNumber y)].

Definition table7 : Table :=
  mkTable "row0" 7 4 (Some (xy 10 20)) "terrace" false ["window seat"].

Definition table8 : Table :=
  mkTable "row1" 8 2 None "terrace" true [].

Definition order1 : Order.t :=
  Order.mk "row2" "ORD-1" (JArray []) "Guest" "guest@local" "row0"
    "PREPARING" 2 None None 30 None.

Definition sampleDb : Db := mkDb [table7; table8] [order1] [].

Definition admin : User := mkUser (Some ADMIN).
Definition manager : User := mkUser (Some MANAGER).
Definition waiter : User := mkUser (Some WAITER).
Definition chef : User := mkUser (Some CHEF).

Definition loggedIn (u : User) : Context := mkContext (Some u).
Definition anonymous : Context := mkContext None.

Definition sixDiners : EditTable.Args :=
  EditTable.mk "row0" undefined (val 6%Z) undefined undefined undefined
    undefined.

Definition secondTableSeven : AddTable.Args :=
  AddTable.mk 7 2 (val (xy 1 2)) "hall" (val true) null.

Definition tableNine : AddTable.Args :=
  AddTable.mk 9 4 undefined "terrace" undefined undefined.

Definition unknownEdit : EditTable.Args :=
  EditTable.mk "row9" undefined (val 6%Z) undefined undefined undefined
    undefined.

Definition editWithNulls : EditTable.Args :=
  EditTable.mk "row0" null (val 6%Z) null null (val ["high chair"]) undefined.

Definition secondOrderOne : AddOrderToTable.Args :=
  AddOrderToTable.mk "row0" "ORD-1" (JArray [JString "soup"]) "Guest"
    "guest@local" 2 undefined null 12 undefined.

(** ** The home page ([app/page.tsx]) *)

(** What the page renders: the components by name, with the user they are
    handed, a fragment and the enclosing [main]. *)
#[local] Unset Elimination Schemes.
Inductive Element : Type :=
| Main (children : list Element)
| Fragment (children : list Element)
| Header (user : option User)
| SideBar (user : option User)
| HeroSection
| Promos
| ZoneRestaurant
| Categories
| MenuSection (user : option User)
| Footer.
#[local] Set Elimination Schemes.

(** [user?.role !== s], the user of the session being possibly absent. *)
Definition sessionRoleIsNot (user : option User) (s : string) : bool :=
  match user with
  | Some u => roleIsNot u s
  | None => true
  end.

Definition Home (user : option User) : Element :=
  Main [Header user;
        SideBar user;
        (if sessionRoleIsNot user "WAITER" && sessionRoleIsNot user "MANAGER"
         then Fragment [HeroSection; Promos]
         else ZoneRestaurant);
        Categories;
        MenuSection user;
        Footer].

Definition childrenOf (e : Element) : list Element :=
  match e with
  | Main l | Fragment l => l
  | _ => []
  end.

(** ** Conditions on the rows *)

(** No two stored tables have the same [tableNumber]. *)
Definition uniqueNumbers (db : Db) : Prop :=
  NoDup (map tableNumber (tables db)).

(** No two stored tables have the same id. *)
Definition uniqueIds (db : Db) : Prop := NoDup (map id (tables db)).

(** Every stored order is linked to a stored table. *)
Definition linked (db : Db) : Prop :=
  forall o, In o (orders db) ->
            exists t, In t (tables db) /\ id t = Order.tableId o.

(** The table [t] with its position forgotten. *)
Definition withoutPosition (t : Table) : Table :=
  mkTable (id t) (tableNumber t) (diners t) None (areaId t) (reserved t)
    (specialRequests t).

(** The table [t] moved to [p] and nothing else changed. *)
Definition withPosition (p : JSON) (t : Table) : Table :=
  mkTable (id t) (tableNumber t) (diners t) (Some p) (areaId t) (reserved t)
    (specialRequests t).

(** At most two calls to the client, and a write, if any, is the last. *)
Definition oneWriteLast (new : list PrismaCall) : bool :=
  match new with
  | [] => true
  | [_] => true
  | [r; _] => negb (isWrite r)
  | _ => false
  end.

Definition isDeleteTable (m : Mutation) : bool :=
  match m with
  | DeleteTableCall _ => true
  | _ => false
  end.

Definition isGraphQLError (e : Error) : bool :=
  match e with
  | GraphQLError _ => true
  | PrismaClientKnownRequestError _ => false
  end.

Definition noFields (i : string) : EditTable.Args :=
  EditTable.mk i undefined undefined undefined undefined undefined undefined.

Definition onlyReserved (i : string) (b : bool) : EditTable.Args :=
  EditTable.mk i undefined undefined (val b) undefined undefined undefined.

Definition onlyPosition (i : string) (p : JSON) : EditTable.Args :=
  EditTable.mk i undefined undefined undefined (val p) undefined undefined.

Definition customer : User := mkUser (Some USER).
Definition noRole : User := mkUser None.

(** The data that [editTable] hands to the update. *)
Definition editData (args : EditTable.Args) : TableUpdateInput :=
  mkTableUpdateInput
    (orUndefined (EditTable.tableNumber args))
    (orUndefined (EditTable.diners args))
    (orUndefined (EditTable.reserved args))
    (orUndefined (EditTable.position args))
    (orUndefined (EditTable.specialRequests args))
    (orUndefined (EditTable.areaId args)).

(** The resolvers that write without a lookup of their own. *)
Definition writesBlind (m : Mutation) : bool :=
  match m with
  | EditTableCall _ | DeleteTableCall _ => true
  | _ => false
  end.

Definition noData : TableUpdateInput :=
  mkTableUpdateInput None None None None None None.

(** The operations whose resolver lets nobody but an ADMIN through. *)
Definition adminOnly (m : Mutation) : bool :=
  match m with
  | EditTableCall _ | DeleteTableCall _ | ToggleTableReservationCall _ => true
  | _ => false
  end.

(** The stored orders that carry the orderNumber [n]. *)
Definition ordersNumbered (n : string) (os : list Order.t) : list Order.t :=
  filter (fun o => String.eqb (Order.orderNumber o) n) os.

(** ** Two calls at the same time *)

(** A resolver that awaits the persistence client twice, cut at its second
    await: what it does up to and with its first call to the client, and
    what it does with what that call returned. *)
Record TwoSteps (X A : Type) : Type := mkTwoSteps {
  lookupStep : Async X;
  writeStep : X -> Async A
}.
Arguments mkTwoSteps {X A} lookupStep writeStep.
Arguments lookupStep {X A} t.
Arguments writeStep {X A} t x.

(** The two steps one after the other, nothing in between. *)
Definition inSequence {X A : Type} (s : TwoSteps X A) : Async A :=
  await x <- lookupStep s ;; writeStep s x.

(** [addTable] cut after [prisma.table.findFirst]. *)
Definition addTableSteps (newId : Db -> string)
  (positionDefault : option JSON) (context : Context) (args : AddTable.Args)
  : TwoSteps (option Table) Table :=
  mkTwoSteps
    (match user context with
     | None =>
         throw (GraphQLError "You must be logged in to perform this action")
     | Some u =>
         if negb (includes ["ADMIN"; "MANAGER"] (roleOrEmpty u)) then
           throw (GraphQLError "You are not authorized to add tables")
         else table_findFirst (AddTable.tableNumber args)
     end)
    (fun existing =>
       match existing with
       | Some _ =>
           throw (GraphQLError "A table with this tableNumber already exists")
       | None =>
           await newTable <-
             table_create newId positionDefault
               (mkTableCreateInput
                  (AddTable.tableNumber args)
                  (AddTable.diners args)
                  (AddTable.position args)
                  (AddTable.areaId args)
                  (coalesce (AddTable.reserved args) false)
                  (coalesce (AddTable.specialRequests args) [])) ;;
           ret newTable
       end).

(** How far a call has got. *)
Inductive Progress (X A : Type) : Type :=
| NotStarted
| LookedUp (x : X)
| Finished (r : Error + A).
Arguments NotStarted {X A}.
Arguments LookedUp {X A} x.
Arguments Finished {X A} r.

(** The next step of a call; a step is not interrupted, and a call that
    has thrown or returned takes no further step. *)
Definition advance {X A : Type} (s : TwoSteps X A) (p : Progress X A)
  (db : Db) : Progress X A * Db :=
  match p with
  | NotStarted =>
      match lookupStep s db with
      | (inr x, db') => (LookedUp x, db')
      | (inl e, db') => (Finished (inl e), db')
      end
  | LookedUp x =>
      match writeStep s x db with
      | (r, db') => (Finished r, db')
      end
  | Finished r => (Finished r, db)
  end.

Inductive Caller : Type := FirstCaller | SecondCaller.

Definition sameCaller (c d : Caller) : bool :=
  match c, d with
  | FirstCaller, FirstCaller | SecondCaller, SecondCaller => true
  | _, _ => false
  end.

(** The number of steps the schedule gives to [c]. *)
Definition turns (c : Caller) (schedule : list Caller) : nat :=
  List.length (filter (sameCaller c) schedule).

(** Two calls against one database, their steps taken in the order of the
    schedule. *)
Fixpoint interleave {X A : Type} (sa sb : TwoSteps X A)
  (schedule : list Caller) (pa pb : Progress X A) (db : Db)
  : Progress X A * Progress X A * Db :=
  match schedule with
  | [] => (pa, pb, db)
  | FirstCaller :: rest =>
      match advance sa pa db with
      | (pa', db') => interleave sa sb rest pa' pb db'
      end
  | SecondCaller :: rest =>
      match advance sb pb db with
      | (pb', db') => interleave sa sb rest pa pb' db'
      end
  end.

Definition concurrently {X A : Type} (sa sb : TwoSteps X A)
  (schedule : list Caller) (db : Db) : Progress X A * Progress X A * Db :=
  interleave sa sb schedule NotStarted NotStarted db.

(** The results of the two calls and the rows left when the first call
    runs wholly before the second, and when the second runs wholly before
    the first. *)
Definition firstThenSecond {X A : Type} (sa sb : TwoSteps X A) (db : Db)
  : (Error + A) * (Error + A) * list Table * list Order.t :=
  match inSequence sa db with
  | (ra, db1) =>
      match inSequence sb db1 with
      | (rb, db2) => (ra, rb, tables db2, orders db2)
      end
  end.

Definition secondThenFirst {X A : Type} (sa sb : TwoSteps X A) (db : Db)
  : (Error + A) * (Error + A) * list Table * list Order.t :=
  match inSequence sb db with
  | (rb, db1) =>
      match inSequence sa db1 with
      | (ra, db2) => (ra, rb, tables db2, orders db2)
      end
  end.

(** The lookup and the write of each call are atomic with respect to the
    other call: however the steps are scheduled, two finished calls have
    the results, and leave the rows, of one call run wholly before the
    other. *)
Definition atomicCalls {X A : Type} (sa sb : TwoSteps X A) (db : Db) : Prop :=
  forall schedule ra rb db',
    concurrently sa sb schedule db = (Finished ra, Finished rb, db') ->
    (ra, rb, tables db', orders db') = firstThenSecond sa sb db
    \/ (ra, rb, tables db', orders db') = secondThenFirst sa sb db.

(** One of two calls has succeeded and the other has failed with an error
    of kind Conflict. *)
Definition oneSucceedsOtherConflicts {A : Type} (ra rb : Error + A) : Prop :=
  (exists a e, ra = inr a /\ rb = inl e /\ errorKind e = Some Conflict)
  \/ (exists b e, rb = inr b /\ ra = inl e /\ errorKind e = Some Conflict).

(** A call that has not yet created anything: it has not looked, or has
    looked and found nothing. *)
Definition early (p : Progress (option Table) Table) : Prop :=
  p = NotStarted \/ p = LookedUp None.

(** A call that can no longer create anything once the number is taken. *)
Definition late (p : Progress (option Table) Table) : Prop :=
  p = NotStarted
  \/ (exists x, p = LookedUp x)
  \/ (exists e, p = Finished (inl e) /\ errorKind e = Some Conflict).

(** The steps still due to a call. *)
Definition stepsDue {X A : Type} (p : Progress X A) : nat :=
  match p with
  | NotStarted => 2
  | LookedUp _ => 1
  | Finished _ => 0
  end.

(** [addTable] over any create of the persistence client. *)
Definition addTableWith (create : TableCreateInput -> Async Table)
  (context : Context) (args : AddTable.Args) : Async Table :=
  match user context with
  | None => throw (GraphQLError "You must be logged in to perform this action")
  | Some u =>
      if negb (includes ["ADMIN"; "MANAGER"] (roleOrEmpty u)) then
        throw (GraphQLError "You are not authorized to add tables")
      else
        await existing <- table_findFirst (AddTable.tableNumber args) ;;
        match existing with
        | Some _ =>
            throw (GraphQLError "A table with this tableNumber already exists")
        | None =>
            await newTable <-
              create
                (mkTableCreateInput
                   (AddTable.tableNumber args)
                   (AddTable.diners args)
                   (AddTable.position args)
                   (AddTable.areaId args)
                   (coalesce (AddTable.reserved args) false)
                   (coalesce (AddTable.specialRequests args) [])) ;;
            ret newTable
        end
  end.

(** A create that does what it is asked and no more: when it succeeds it
    has added one row, with the tableNumber given, after the stored
    ones, and when it fails the tables are as they were. It may or may
    not refuse a tableNumber that is taken. *)
Definition createAppends (create : TableCreateInput -> Async Table) : Prop :=
  forall data db,
    match create data db with
    | (inr t, db') =>
        tables db' = (tables db ++ [t])%list
        /\ tableNumber t = create_tableNumber data
    | (inl _, db') => tables db' = tables db
    end.

(** A create under a schema with no uniqueness constraint. *)
Definition table_create_unconstrained (newId : Db -> string)
  (data : TableCreateInput) : Async Table :=
  fun db =>
    let t := mkTable (newId db)
               (create_tableNumber data)
               (create_diners data)
               (orUndefined (create_position data))
               (create_areaId data)
               (create_reserved data)
               (create_specialRequests data) in
    (inr t, mkDb (tables db ++ [t]) (orders db) (calls db ++ [TableCreate])).

(** Where two [addTable] calls for the tableNumber [n] can be, from the
    rows of [db0] on: nothing is created yet and both calls are early; or
    one call has created the table, after the rows of [db0], and the
    other is late. *)
Definition raceState (n : Z) (db0 : Db)
  (pa pb : Progress (option Table) Table) (db : Db) : Prop :=
  (hasTableNumber n (tables db) = false
   /\ tables db = tables db0 /\ orders db = orders db0
   /\ early pa /\ early pb)
  \/ (exists t,
        pa = Finished (inr t) /\ tableNumber t = n
        /\ tables db = (tables db0 ++ [t])%list /\ orders db = orders db0
        /\ late pb)
  \/ (exists t,
        pb = Finished (inr t) /\ tableNumber t = n
        /\ tables db = (tables db0 ++ [t])%list /\ orders db = orders db0
        /\ late pa).

Definition bothInTurn : list Caller :=
  [FirstCaller; SecondCaller; FirstCaller; SecondCaller].

(** * Properties *)

(** ** Sample runs *)

Example numberToString_samples :
  numberToString 7 = "7" /\ numberToString 0 = "0"
  /\ numberToString (-12) = "-12".
Proof. repeat split. Qed.

Example movePositionTable_seven :
  movePositionTable (loggedIn manager)
    (MovePositionTable.mk 7 (xy 10 20)) (mkDb [table8; table7] [] [])
  = (inr (mkTable "row0" 7 4 (Some (xy 10 20)) "terrace" false
            ["window seat"]),
     mkDb [table8; table7] [] [TableFindUnique; TableUpdate]).
Proof. reflexivity. Qed.

Example movePositionTable_moves :
  fst (movePositionTable (loggedIn admin)
         (MovePositionTable.mk 8 (xy 3 4)) sampleDb)
  = inr (mkTable "row1" 8 2 (Some (xy 3 4)) "terrace" true []).
Proof. reflexivity. Qed.

Example movePositionTable_unknown_number :
  movePositionTable (loggedIn admin)
    (MovePositionTable.mk 9 (xy 3 4)) sampleDb
  = (inl (GraphQLError "Table with tableNumber=9 not found"),
     mkDb [table7; table8] [order1] [TableFindUnique]).
Proof. reflexivity. Qed.

Example addOrderToTable_chef :
  addOrderToTable sampleId (loggedIn chef) secondOrderOne sampleDb
  = (inl (GraphQLError "You are not authorized to add an order to a table"),
     sampleDb).
Proof. reflexivity. Qed.

Example addOrderToTable_unknown_table :
  addOrderToTable sampleId (loggedIn waiter)
    (AddOrderToTable.mk "row9" "ORD-2" (JArray []) "Guest" "guest@local" 2
       undefined undefined 12 undefined) sampleDb
  = (inl (GraphQLError "Table not found"),
     mkDb [table7; table8] [order1] [TableFindUnique]).
Proof. reflexivity. Qed.

Example deleteTable_seven :
  deleteTable keepOrders (loggedIn admin) (DeleteTable.mk "row0") sampleDb
  = (inr table7, mkDb [table8] [order1] [TableDelete]).
Proof. reflexivity. Qed.

Example editTable_taken_number :
  editTable (loggedIn admin)
    (EditTable.mk "row0" (val 8%Z) undefined undefined undefined undefined
       undefined) sampleDb
  = (inl P2002, mkDb [table7; table8] [order1] [TableUpdate]).
Proof. reflexivity. Qed.

Example addTable_nine :
  addTable sampleId None (loggedIn admin) tableNine sampleDb
  = (inr (mkTable "row3" 9 4 None "terrace" false []),
     mkDb [table7; table8; mkTable "row3" 9 4 None "terrace" false []]
       [order1] [TableFindFirst; TableCreate]).
Proof. reflexivity. Qed.

(** ** Rows *)

Lemma find_none_iff (p : Table -> bool) (l : list Table) :
  find p l = None <-> forall t, In t l -> p t = false.
Proof.
  split.
  - intros H t Ht. exact (find_none p l H t Ht).
  - induction l as [|a l IH]; intros H; [reflexivity|].
    simpl. rewrite (H a (or_introl eq_refl)).
    apply IH. intros t Ht. apply H. now right.
Qed.

Lemma find_matches (w : TableWhereUniqueInput) (l : list Table) (t : Table) :
  find (matches w) l = Some t -> In t l /\ matches w t = true.
Proof. apply find_some. Qed.

Lemma find_replaceFirst (p : Table -> bool) (t t' : Table) (l : list Table) :
  find p l = Some t -> p t' = true -> find p (replaceFirst p t' l) = Some t'.
Proof.
  intros Hfind Hp. induction l as [|a l IH]; [discriminate|].
  simpl in *. destruct (p a) eqn:Ha.
  - simpl. now rewrite Hp.
  - simpl. rewrite Ha. now apply IH.
Qed.

Lemma replaceFirst_twice (p : Table -> bool) (t1 t2 : Table) (l : list Table) :
  p t1 = true ->
  replaceFirst p t2 (replaceFirst p t1 l) = replaceFirst p t2 l.
Proof.
  intros Hp. induction l as [|a l IH]; [reflexivity|].
  simpl. destruct (p a) eqn:Ha; simpl.
  - now rewrite Hp.
  - now rewrite Ha, IH.
Qed.


Lemma hasTableNumber_true (n : Z) (l : list Table) :
  hasTableNumber n l = true <-> exists t, In t l /\ tableNumber t = n.
Proof.
  unfold hasTableNumber. rewrite existsb_exists.
  split; intros [t [Hin Hn]]; exists t; split; trivial.
  - now apply Z.eqb_eq.
  - now apply Z.eqb_eq.
Qed.

Lemma find_tableNumber (n : Z) (l : list Table) :
  find (fun t => Z.eqb (tableNumber t) n) l = None <->
  hasTableNumber n l = false.
Proof.
  unfold hasTableNumber. induction l as [|a l IH]; simpl; [tauto|].
  destruct (Z.eqb (tableNumber a) n); simpl; [|exact IH].
  split; discriminate.
Qed.

(** ** Roles *)

Lemma includes_roleOrEmpty (u : User) (l : list Role) :
  includes (map roleName l) (roleOrEmpty u) = true <-> hasRoleIn u l.
Proof.
  unfold includes, roleOrEmpty, hasRoleIn. rewrite existsb_exists.
  destruct (role u) as [r|].
  - split.
    + intros [s [Hin Heq]]. apply String.eqb_eq in Heq. subst s.
      apply in_map_iff in Hin. destruct Hin as [r' [Hname Hin]].
      destruct r, r'; try discriminate; assumption.
    + intros Hin. exists (roleName r). split.
      * now apply in_map.
      * apply String.eqb_refl.
  - split; [|contradiction].
    intros [s [Hin Heq]]. apply String.eqb_eq in Heq. subst s.
    apply in_map_iff in Hin. destruct Hin as [r' [Hname _]].
    destruct r'; discriminate.
Qed.

Lemma roleIsNot_ADMIN (u : User) :
  roleIsNot u "ADMIN" = false <-> hasRoleIn u [ADMIN].
Proof.
  unfold roleIsNot, hasRoleIn. destruct (role u) as [r|].
  - destruct r; simpl; split; intros H;
      try discriminate; try reflexivity; try (now left);
      destruct H as [H|[]]; discriminate.
  - split; [discriminate|contradiction].
Qed.


(** ** Running a resolver *)

Ltac run_resolver :=
  unfold resolve, payload, addTable, editTable, deleteTable,
    toggleTableReservation, addOrderToTable, movePositionTable,
    table_findFirst, table_findUnique, table_create, table_update,
    table_delete, order_create, bind, ret, throw, loggedIn, anonymous;
  simpl.

Ltac split_outcome :=
  repeat match goal with
    | |- context [match find ?p ?l with _ => _ end] =>
        destruct (find p l) eqn:?; simpl
    | |- context [if ?b then _ else _] => destruct b eqn:?; simpl
    | |- context [match ?o ?i ?os with Some _ => _ | None => _ end] =>
        destruct (o i os) eqn:?; simpl
    end.

Ltac calls_extended :=
  unfold called; simpl; rewrite <- ?app_assoc; simpl;
  do 2 eexists; reflexivity.

Ltac other_kind :=
  match goal with
  | |- True => exact I
  | |- _ /\ _ => split; cbn; discriminate
  end.

Lemma authorized_past_authorization
  (newId : Db -> string) (positionDefault : option JSON)
  (onDeleteTable : string -> list Order.t -> option (list Order.t))
  (m : Mutation) (r : Role) (db : Db) :
  In r (allowedRoles m) ->
  pastAuthorization db
    (resolve newId positionDefault onDeleteTable (loggedIn (mkUser (Some r)))
       m db).
Proof.
  intros Hin. unfold pastAuthorization.
  destruct m; destruct r; simpl in Hin;
    try (exfalso; intuition discriminate);
    run_resolver; split_outcome; (split; [calls_extended | other_kind]).
Qed.

Lemma unauthorized_forbidden
  (newId : Db -> string) (positionDefault : option JSON)
  (onDeleteTable : string -> list Order.t -> option (list Order.t))
  (m : Mutation) (u : User) (db : Db) :
  ~ hasRoleIn u (allowedRoles m) ->
  resolve newId positionDefault onDeleteTable (loggedIn u) m db
  = (inl (GraphQLError (notAuthorizedMessage m)), db).
Proof.
  intros Hout. destruct u as [[r|]]; unfold hasRoleIn in Hout; simpl in Hout.
  - destruct m; destruct r; simpl in Hout;
      try (exfalso; apply Hout; tauto); reflexivity.
  - destruct m; reflexivity.
Qed.

Lemma notAuthorizedMessage_kind (m : Mutation) :
  errorKind (GraphQLError (notAuthorizedMessage m)) = Some Forbidden.
Proof. destruct m; reflexivity. Qed.

(** ** Authentication and authorization *)

(** C1. For each of the six operations and every logged-in user: when the
    user's role is outside the operation's allowed set, the call fails
    with the operation's not-authorized error, whose kind is Forbidden,
    and leaves the database as it was, with not one call made to the
    persistence client; when the role is in the set, the call gets past
    the authorization check. *)
Theorem role_decides_authorization
  (newId : Db -> string) (positionDefault : option JSON)
  (onDeleteTable : string -> list Order.t -> option (list Order.t))
  (m : Mutation) (u : User) (db : Db) :
  (~ hasRoleIn u (allowedRoles m) ->
   resolve newId positionDefault onDeleteTable (loggedIn u) m db
   = (inl (GraphQLError (notAuthorizedMessage m)), db)
   /\ errorKind (GraphQLError (notAuthorizedMessage m)) = Some Forbidden)
  /\
  (hasRoleIn u (allowedRoles m) ->
   pastAuthorization db
     (resolve newId positionDefault onDeleteTable (loggedIn u) m db)).
Proof.
  split.
  - intros Hout. split.
    + now apply unauthorized_forbidden.
    + apply notAuthorizedMessage_kind.
  - destruct u as [[r|]]; unfold hasRoleIn; simpl; [|contradiction].
    apply authorized_past_authorization.
Qed.

Lemma role_decides_authorization_witness :
  (~ hasRoleIn manager (allowedRoles (EditTableCall sixDiners)) /\
   resolve sampleId None keepOrders (loggedIn manager)
     (EditTableCall sixDiners) sampleDb
   = (inl (GraphQLError "You are not authorized to edit tables"), sampleDb))
  /\
  (hasRoleIn admin (allowedRoles (EditTableCall sixDiners)) /\
   pastAuthorization sampleDb
     (resolve sampleId None keepOrders (loggedIn admin)
        (EditTableCall sixDiners) sampleDb)).
Proof.
  assert (Hout : ~ hasRoleIn manager (allowedRoles (EditTableCall sixDiners)))
    by (simpl; intros [H|[]]; discriminate).
  assert (Hin : hasRoleIn admin (allowedRoles (EditTableCall sixDiners)))
    by (simpl; now left).
  split; (split; [assumption|]).
  - exact (proj1 (proj1 (role_decides_authorization sampleId None keepOrders
                           (EditTableCall sixDiners) manager sampleDb) Hout)).
  - exact (proj2 (role_decides_authorization sampleId None keepOrders
                    (EditTableCall sixDiners) admin sampleDb) Hin).
Defined.

(** C2. For each of the six operations, a call with no user in the context
    fails with the must-be-logged-in error, whose kind is Unauthenticated,
    and leaves the database as it was: no row is changed and not one call,
    read or write, is made to the persistence client. *)
Theorem no_user_is_unauthenticated
  (newId : Db -> string) (positionDefault : option JSON)
  (onDeleteTable : string -> list Order.t -> option (list Order.t))
  (m : Mutation) (db : Db) :
  resolve newId positionDefault onDeleteTable anonymous m db
  = (inl (GraphQLError "You must be logged in to perform this action"), db)
  /\ errorKind (GraphQLError "You must be logged in to perform this action")
     = Some Unauthenticated.
Proof. split; [destruct m|]; reflexivity. Qed.


Lemma called_rows (c : PrismaCall) (db : Db) :
  tables (called c db) = tables db /\ orders (called c db) = orders db.
Proof. split; reflexivity. Qed.

Lemma hasTableNumber_false (n : Z) (l : list Table) :
  ~ (exists t, In t l /\ tableNumber t = n) -> hasTableNumber n l = false.
Proof.
  intros Hno. destruct (hasTableNumber n l) eqn:E; [|reflexivity].
  exfalso. apply Hno. now apply hasTableNumber_true.
Qed.

(** ** addTable *)

(** C3. For an addTable call by a user with role ADMIN or MANAGER: when a
    table with the given tableNumber is stored, the call fails with the
    already-exists error, whose kind is Conflict, after the one lookup and
    with the rows as they were; otherwise it succeeds, the table returned
    is the one row added to the stored tables, it carries the tableNumber,
    diners and areaId given, and its reserved and specialRequests are the
    ones given or else false and the empty list, so false and empty
    when they are left out. *)
Theorem addTable_conflict_or_create
  (newId : Db -> string) (positionDefault : option JSON)
  (u : User) (args : AddTable.Args) (db : Db) :
  hasRoleIn u [ADMIN; MANAGER] ->
  ((exists t, In t (tables db) /\ tableNumber t = AddTable.tableNumber args) ->
   addTable newId positionDefault (loggedIn u) args db
   = (inl (GraphQLError "A table with this tableNumber already exists"),
      called TableFindFirst db)
   /\ errorKind (GraphQLError "A table with this tableNumber already exists")
      = Some Conflict
   /\ tables (called TableFindFirst db) = tables db
   /\ orders (called TableFindFirst db) = orders db)
  /\
  (~ (exists t, In t (tables db) /\ tableNumber t = AddTable.tableNumber args) ->
   exists t db',
     addTable newId positionDefault (loggedIn u) args db = (inr t, db')
     /\ tables db' = (tables db ++ [t])%list
     /\ orders db' = orders db
     /\ calls db' = (calls db ++ [TableFindFirst; TableCreate])%list
     /\ tableNumber t = AddTable.tableNumber args
     /\ diners t = AddTable.diners args
     /\ areaId t = AddTable.areaId args
     /\ reserved t = coalesce (AddTable.reserved args) false
     /\ specialRequests t = coalesce (AddTable.specialRequests args) []
     /\ (AddTable.reserved args = undefined -> reserved t = false)
     /\ (AddTable.specialRequests args = undefined ->
         specialRequests t = [])).
Proof.
  intros Hrole.
  assert (Hpass : negb (includes ["ADMIN"; "MANAGER"] (roleOrEmpty u)) = false).
  { apply negb_false_iff.
    exact (proj2 (includes_roleOrEmpty u [ADMIN; MANAGER]) Hrole). }
  unfold addTable, loggedIn. cbn [user]. rewrite Hpass.
  unfold table_findFirst, table_create, bind, throw, ret.
  cbn [called tables orders calls create_tableNumber].
  split.
  - intros Hex. apply hasTableNumber_true in Hex.
    destruct (find (fun t => Z.eqb (tableNumber t) (AddTable.tableNumber args))
                (tables db)) eqn:Hfind.
    + repeat split.
    + apply find_tableNumber in Hfind. congruence.
  - intros Hno. apply hasTableNumber_false in Hno.
    rewrite (proj2 (find_tableNumber _ _) Hno).
    rewrite (proj1 (called_rows _ _)), Hno.
    do 2 eexists. split; [reflexivity|]. simpl.
    rewrite <- app_assoc. simpl.
    repeat split; intros ->; reflexivity.
Qed.

Lemma addTable_conflict_or_create_witness :
  (hasRoleIn manager [ADMIN; MANAGER] /\
   (exists t, In t (tables sampleDb) /\ tableNumber t = 7%Z) /\
   addTable sampleId None (loggedIn manager) secondTableSeven sampleDb
   = (inl (GraphQLError "A table with this tableNumber already exists"),
      called TableFindFirst sampleDb))
  /\
  (~ (exists t, In t (tables sampleDb) /\ tableNumber t = 9%Z) /\
   exists t db',
     addTable sampleId None (loggedIn manager) tableNine sampleDb = (inr t, db')
     /\ tables db' = [table7; table8; t]
     /\ reserved t = false
     /\ specialRequests t = []).
Proof.
  assert (Hrole : hasRoleIn manager [ADMIN; MANAGER])
    by (right; left; reflexivity).
  assert (Hex : exists t, In t (tables sampleDb) /\ tableNumber t = 7%Z)
    by (exists table7; split; [left|]; reflexivity).
  assert (Hno : ~ (exists t, In t (tables sampleDb) /\ tableNumber t = 9%Z)).
  { intros [t [[<-|[<-|[]]] Hn]]; discriminate Hn. }
  split.
  - split; [exact Hrole|]. split; [exact Hex|].
    exact (proj1 (proj1 (addTable_conflict_or_create sampleId None manager
                           secondTableSeven sampleDb Hrole) Hex)).
  - split; [exact Hno|].
    destruct (proj2 (addTable_conflict_or_create sampleId None manager
                       tableNine sampleDb Hrole) Hno)
      as (t & db' & Hrun & Htables & _ & _ & _ & _ & _ & _ & _ & Hres & Hreq).
    exists t, db'. repeat split.
    + exact Hrun.
    + exact Htables.
    + exact (Hres eq_refl).
    + exact (Hreq eq_refl).
Defined.

(** ** editTable and deleteTable *)

Lemma find_unknown_id (i : string) (l : list Table) :
  (forall t, In t l -> id t <> i) -> find (matches (WhereId i)) l = None.
Proof.
  intros Hno. apply find_none_iff. intros t Ht. simpl.
  apply String.eqb_neq. now apply Hno.
Qed.

Lemma admin_passes (u : User) : hasRoleIn u [ADMIN] -> roleIsNot u "ADMIN" = false.
Proof. apply roleIsNot_ADMIN. Qed.

(** C4. For an editTable or a deleteTable call by a user with role ADMIN
    whose id is the id of no stored table: the call fails with the
    persistence client's record-not-found error (request error P2025),
    whose kind is NotFound, and the stored tables and orders are as they
    were: nothing is created, updated or deleted. *)
Theorem edit_delete_unknown_id_not_found
  (onDeleteTable : string -> list Order.t -> option (list Order.t))
  (u : User) (db : Db) :
  hasRoleIn u [ADMIN] ->
  (forall args : EditTable.Args,
     (forall t, In t (tables db) -> id t <> EditTable.id args) ->
     editTable (loggedIn u) args db = (inl P2025, called TableUpdate db))
  /\
  (forall args : DeleteTable.Args,
     (forall t, In t (tables db) -> id t <> DeleteTable.id args) ->
     deleteTable onDeleteTable (loggedIn u) args db
     = (inl P2025, called TableDelete db))
  /\ errorKind P2025 = Some NotFound
  /\ (forall c, tables (called c db) = tables db
               /\ orders (called c db) = orders db).
Proof.
  intros Hrole. apply admin_passes in Hrole.
  split; [|split; [|split]].
  - intros args Hno. unfold editTable, loggedIn. cbn [user]. rewrite Hrole.
    unfold table_update, bind. now rewrite (find_unknown_id _ _ Hno).
  - intros args Hno. unfold deleteTable, loggedIn. cbn [user]. rewrite Hrole.
    unfold table_delete, bind. now rewrite (find_unknown_id _ _ Hno).
  - reflexivity.
  - intros c. apply called_rows.
Qed.

Lemma edit_delete_unknown_id_not_found_witness :
  hasRoleIn admin [ADMIN]
  /\ (forall t, In t (tables sampleDb) -> id t <> "row9")
  /\ editTable (loggedIn admin) unknownEdit sampleDb
     = (inl P2025, mkDb [table7; table8] [order1] [TableUpdate])
  /\ deleteTable keepOrders (loggedIn admin) (DeleteTable.mk "row9") sampleDb
     = (inl P2025, mkDb [table7; table8] [order1] [TableDelete]).
Proof.
  assert (Hrole : hasRoleIn admin [ADMIN]) by (left; reflexivity).
  assert (Hno : forall t, In t (tables sampleDb) -> id t <> "row9").
  { intros t [<-|[<-|[]]]; discriminate. }
  split; [exact Hrole|]. split; [exact Hno|].
  destruct (edit_delete_unknown_id_not_found keepOrders admin sampleDb Hrole)
    as (Hedit & Hdelete & _).
  split.
  - exact (Hedit unknownEdit Hno).
  - exact (Hdelete (DeleteTable.mk "row9") Hno).
Defined.

(** C5. For an editTable call by a user with role ADMIN that gives diners
    and leaves every other field out, on the id of a stored table: the
    call succeeds, the table returned has the diners given and the id,
    tableNumber, position, areaId, reserved and specialRequests of the
    stored one, it takes the place of the stored one (it is what the id
    finds afterwards), and the orders are as they were. *)
Theorem editTable_only_diners
  (u : User) (i : string) (d : Z) (t : Table) (db : Db) :
  hasRoleIn u [ADMIN] ->
  find (matches (WhereId i)) (tables db) = Some t ->
  exists db',
    editTable (loggedIn u)
      (EditTable.mk i undefined (val d) undefined undefined undefined undefined)
      db
    = (inr (mkTable (id t) (tableNumber t) d (position t) (areaId t)
              (reserved t) (specialRequests t)), db')
    /\ tables db'
       = replaceFirst (matches (WhereId i))
           (mkTable (id t) (tableNumber t) d (position t) (areaId t)
              (reserved t) (specialRequests t))
           (tables db)
    /\ find (matches (WhereId i)) (tables db')
       = Some (mkTable (id t) (tableNumber t) d (position t) (areaId t)
                 (reserved t) (specialRequests t))
    /\ orders db' = orders db.
Proof.
  intros Hrole Hfind. apply admin_passes in Hrole.
  unfold editTable, loggedIn. cbn [user]. rewrite Hrole.
  unfold table_update, bind, ret. cbn [EditTable.id]. rewrite Hfind.
  cbn. eexists. repeat split.
  apply find_replaceFirst with (t := t); [exact Hfind|].
  exact (proj2 (find_matches _ _ _ Hfind)).
Qed.

Lemma editTable_only_diners_witness :
  hasRoleIn admin [ADMIN]
  /\ find (matches (WhereId "row0")) (tables sampleDb) = Some table7
  /\ exists db',
       editTable (loggedIn admin) sixDiners sampleDb
       = (inr (mkTable "row0" 7 6 (Some (xy 10 20)) "terrace" false
                 ["window seat"]), db')
       /\ tables db'
          = [mkTable "row0" 7 6 (Some (xy 10 20)) "terrace" false
               ["window seat"]; table8].
Proof.
  assert (Hrole : hasRoleIn admin [ADMIN]) by (left; reflexivity).
  split; [exact Hrole|]. split; [reflexivity|].
  destruct (editTable_only_diners admin "row0" 6 table7 sampleDb Hrole eq_refl)
    as (db' & Hrun & Htables & _).
  exists db'. split; [exact Hrun | exact Htables].
Defined.

Lemma orUndefined_omitNull {A : Type} (x : Optional A) :
  orUndefined (omitNull x) = orUndefined x.
Proof. destruct x; reflexivity. Qed.

(** C10. In editTable an explicit null for a field does what leaving the
    field out does: the call with the nulls and the call with them left
    out have the same outcome on every context and database. And whenever
    an editTable call succeeds, the id names a stored table, and each
    field of the table returned (which is what the id finds afterwards)
    is the non-null value given for it or else the stored value; no call
    sets a field to null. *)
Theorem editTable_null_is_omitted
  (context : Context) (args : EditTable.Args) (db : Db) :
  editTable context args db = editTable context (omitNulls args) db
  /\
  (forall t' db',
     editTable context args db = (inr t', db') ->
     exists t,
       find (matches (WhereId (EditTable.id args))) (tables db) = Some t
       /\ id t' = id t
       /\ tableNumber t' = coalesce (EditTable.tableNumber args) (tableNumber t)
       /\ diners t' = coalesce (EditTable.diners args) (diners t)
       /\ reserved t' = coalesce (EditTable.reserved args) (reserved t)
       /\ position t'
          = match EditTable.position args with
            | val p => Some p
            | _ => position t
            end
       /\ specialRequests t'
          = coalesce (EditTable.specialRequests args) (specialRequests t)
       /\ areaId t' = coalesce (EditTable.areaId args) (areaId t)
       /\ find (matches (WhereId (EditTable.id args))) (tables db')
          = Some t').
Proof.
  split.
  - unfold editTable, omitNulls. cbn [EditTable.id EditTable.tableNumber
      EditTable.diners EditTable.reserved EditTable.position
      EditTable.specialRequests EditTable.areaId].
    now rewrite !orUndefined_omitNull.
  - intros t' db'. unfold editTable.
    destruct (user context) as [u|]; [|discriminate].
    destruct (roleIsNot u "ADMIN"); [discriminate|].
    unfold table_update, bind, ret.
    destruct (find (matches (WhereId (EditTable.id args))) (tables db))
      as [t|] eqn:Hfind; [|discriminate].
    match goal with
    | |- context [if ?b then _ else _] => destruct b; [discriminate|]
    end.
    intros Hrun. injection Hrun as <- <-.
    exists t. split; [reflexivity|].
    destruct args as [i n d r p sr a]. cbn [tables].
    repeat split;
      try (destruct n, d, r, p, sr, a; reflexivity).
    apply find_replaceFirst with (t := t); [exact Hfind|].
    exact (proj2 (find_matches _ _ _ Hfind)).
Qed.

Lemma editTable_null_is_omitted_witness :
  exists t' db',
    editTable (loggedIn admin) editWithNulls sampleDb = (inr t', db')
    /\ t' = mkTable "row0" 7 6 (Some (xy 10 20)) "terrace" false ["high chair"]
    /\ tableNumber t' = tableNumber table7
    /\ position t' = position table7
    /\ reserved t' = reserved table7.
Proof.
  exists (mkTable "row0" 7 6 (Some (xy 10 20)) "terrace" false ["high chair"]).
  eexists.
  assert (Hrun : editTable (loggedIn admin) editWithNulls sampleDb
                 = (inr (mkTable "row0" 7 6 (Some (xy 10 20)) "terrace" false
                           ["high chair"]),
                    mkDb [mkTable "row0" 7 6 (Some (xy 10 20)) "terrace" false
                            ["high chair"]; table8] [order1] [TableUpdate]))
    by reflexivity.
  split; [exact Hrun|]. split; [reflexivity|].
  destruct (proj2 (editTable_null_is_omitted (loggedIn admin) editWithNulls
                     sampleDb) _ _ Hrun)
    as (t & Hfind & _ & Hn & _ & Hr & Hp & _).
  injection Hfind as <-.
  split; [exact Hn|]. split; [exact Hp | exact Hr].
Defined.

(** ** toggleTableReservation *)

Lemma find_known_id (i : string) (l : list Table) :
  (exists t, In t l /\ id t = i) ->
  exists t, find (matches (WhereId i)) l = Some t.
Proof.
  intros [t [Hin Hid]].
  destruct (find (matches (WhereId i)) l) as [t0|] eqn:Hfind; [now exists t0|].
  exfalso. pose proof (proj1 (find_none_iff _ _) Hfind t Hin) as Hp.
  simpl in Hp. apply String.eqb_neq in Hp. contradiction.
Qed.

Lemma toggle_stored (u : User) (i : string) (b : bool) (t : Table) (db : Db) :
  hasRoleIn u [ADMIN] ->
  find (matches (WhereId i)) (tables db) = Some t ->
  toggleTableReservation (loggedIn u) (ToggleTableReservation.mk i b) db
  = (inr (withReserved b t),
     mkDb (replaceFirst (matches (WhereId i)) (withReserved b t) (tables db))
       (orders db) (calls db ++ [TableFindUnique; TableUpdate])%list).
Proof.
  intros Hrole Hfind. apply admin_passes in Hrole.
  unfold toggleTableReservation, loggedIn. cbn [user]. rewrite Hrole.
  unfold table_findUnique, table_update, bind, ret.
  cbn [ToggleTableReservation.id ToggleTableReservation.reserved].
  rewrite Hfind. rewrite (proj1 (called_rows _ _)), Hfind.
  cbn. now rewrite <- app_assoc.
Qed.

(** C7. For a user with role ADMIN and an id X: when X names a stored
    table, toggleTableReservation with reserved true and then with
    reserved false both succeed, and afterwards the table that X finds
    has reserved false and every other field as before the first call,
    the other tables and the orders being as they were; when X is the id
    of no stored table, the call fails with the table-not-found error,
    whose kind is NotFound, having made the one lookup, which is no write,
    and with the rows as they were. *)
Theorem toggle_reservation_round_trip (u : User) (X : string) (db : Db) :
  hasRoleIn u [ADMIN] ->
  (forall t,
     find (matches (WhereId X)) (tables db) = Some t ->
     exists t1 db1 t2 db2,
       toggleTableReservation (loggedIn u)
         (ToggleTableReservation.mk X true) db = (inr t1, db1)
       /\ toggleTableReservation (loggedIn u)
            (ToggleTableReservation.mk X false) db1 = (inr t2, db2)
       /\ t2 = mkTable (id t) (tableNumber t) (diners t) (position t)
                 (areaId t) false (specialRequests t)
       /\ find (matches (WhereId X)) (tables db2) = Some t2
       /\ tables db2 = replaceFirst (matches (WhereId X)) t2 (tables db)
       /\ orders db2 = orders db)
  /\
  (forall b,
     (forall t, In t (tables db) -> id t <> X) ->
     toggleTableReservation (loggedIn u) (ToggleTableReservation.mk X b) db
     = (inl (GraphQLError "Table not found"), called TableFindUnique db)
     /\ errorKind (GraphQLError "Table not found") = Some NotFound
     /\ isWrite TableFindUnique = false
     /\ tables (called TableFindUnique db) = tables db
     /\ orders (called TableFindUnique db) = orders db).
Proof.
  intros Hrole. split.
  - intros t Hfind.
    assert (HX : matches (WhereId X) t = true)
      by exact (proj2 (find_matches _ _ _ Hfind)).
    pose proof (toggle_stored u X true t db Hrole Hfind) as H1.
    assert (Hfind1 : find (matches (WhereId X))
                       (replaceFirst (matches (WhereId X)) (withReserved true t)
                          (tables db))
                     = Some (withReserved true t))
      by (apply find_replaceFirst with (t := t); assumption).
    do 4 eexists. split; [exact H1|]. split.
    + apply toggle_stored; [exact Hrole | exact Hfind1].
    + cbn [tables orders]. rewrite replaceFirst_twice by exact HX.
      repeat split.
      apply find_replaceFirst with (t := t); assumption.
  - intros b Hno. apply admin_passes in Hrole.
    unfold toggleTableReservation, loggedIn. cbn [user]. rewrite Hrole.
    unfold table_findUnique, bind, throw. cbn [ToggleTableReservation.id].
    rewrite (find_unknown_id _ _ Hno). repeat split.
Qed.

Lemma toggle_reservation_round_trip_witness :
  (hasRoleIn admin [ADMIN]
   /\ find (matches (WhereId "row1")) (tables sampleDb) = Some table8
   /\ exists t1 db1 t2 db2,
        toggleTableReservation (loggedIn admin)
          (ToggleTableReservation.mk "row1" true) sampleDb = (inr t1, db1)
        /\ toggleTableReservation (loggedIn admin)
             (ToggleTableReservation.mk "row1" false) db1 = (inr t2, db2)
        /\ t2 = mkTable "row1" 8 2 None "terrace" false []
        /\ find (matches (WhereId "row1")) (tables db2) = Some t2)
  /\
  ((forall t, In t (tables sampleDb) -> id t <> "row9")
   /\ toggleTableReservation (loggedIn admin)
        (ToggleTableReservation.mk "row9" true) sampleDb
      = (inl (GraphQLError "Table not found"),
         mkDb [table7; table8] [order1] [TableFindUnique])).
Proof.
  assert (Hrole : hasRoleIn admin [ADMIN]) by (left; reflexivity).
  assert (Hno : forall t, In t (tables sampleDb) -> id t <> "row9").
  { intros t [<-|[<-|[]]]; discriminate. }
  destruct (toggle_reservation_round_trip admin "row1" sampleDb Hrole)
    as [Hstored _].
  destruct (toggle_reservation_round_trip admin "row9" sampleDb Hrole)
    as [_ Hmissing].
  split.
  - split; [exact Hrole|]. split; [reflexivity|].
    destruct (Hstored table8 eq_refl)
      as (t1 & db1 & t2 & db2 & H1 & H2 & Ht2 & Hfind & _).
    exists t1, db1, t2, db2. repeat split; assumption.
  - split; [exact Hno|]. exact (proj1 (Hmissing true Hno)).
Defined.

(** ** addOrderToTable *)

(** C6. Whatever the context, the arguments and the database, an order
    that addOrderToTable returns has status PREPARING and is the one
    order added to the stored ones. And for a user with role ADMIN,
    MANAGER or WAITER and a tableId that names a stored table the call
    does return an order: it succeeds, for every value of the other
    arguments, with status PREPARING and the tableId given. *)
Theorem addOrderToTable_status_PREPARING (newId : Db -> string) :
  (forall context args db o db',
     addOrderToTable newId context args db = (inr o, db') ->
     Order.status o = "PREPARING"
     /\ orders db' = (orders db ++ [o])%list)
  /\
  (forall u args db,
     hasRoleIn u [ADMIN; MANAGER; WAITER] ->
     (exists t, In t (tables db) /\ id t = AddOrderToTable.tableId args) ->
     exists o db',
       addOrderToTable newId (loggedIn u) args db = (inr o, db')
       /\ Order.status o = "PREPARING"
       /\ Order.tableId o = AddOrderToTable.tableId args
       /\ orders db' = (orders db ++ [o])%list
       /\ tables db' = tables db).
Proof.
  split.
  - intros context args db o db'. unfold addOrderToTable.
    destruct (user context) as [u|]; [|discriminate].
    destruct (negb _); [discriminate|].
    unfold table_findUnique, order_create, bind, ret, throw.
    destruct (find _ _); [|discriminate].
    intros Hrun. injection Hrun as <- <-. split; reflexivity.
  - intros u args db Hrole Hex.
    assert (Hpass : negb (includes ["ADMIN"; "MANAGER"; "WAITER"]
                            (roleOrEmpty u)) = false).
    { apply negb_false_iff.
      exact (proj2 (includes_roleOrEmpty u [ADMIN; MANAGER; WAITER]) Hrole). }
    destruct (find_known_id _ _ Hex) as [t Hfind].
    unfold addOrderToTable, loggedIn. cbn [user]. rewrite Hpass.
    unfold table_findUnique, order_create, bind, ret. rewrite Hfind.
    do 2 eexists. repeat split.
Qed.

Lemma addOrderToTable_status_PREPARING_witness :
  hasRoleIn waiter [ADMIN; MANAGER; WAITER]
  /\ (exists t, In t (tables sampleDb) /\ id t = "row0")
  /\ exists o db',
       addOrderToTable sampleId (loggedIn waiter) secondOrderOne sampleDb
       = (inr o, db')
       /\ Order.status o = "PREPARING"
       /\ orders db' = [order1; o].
Proof.
  assert (Hrole : hasRoleIn waiter [ADMIN; MANAGER; WAITER])
    by (right; right; left; reflexivity).
  assert (Hex : exists t, In t (tables sampleDb) /\ id t = "row0")
    by (exists table7; split; [left|]; reflexivity).
  split; [exact Hrole|]. split; [exact Hex|].
  destruct (proj2 (addOrderToTable_status_PREPARING sampleId)
              waiter secondOrderOne sampleDb Hrole Hex)
    as (o & db' & Hrun & _).
  exists o, db'. split; [exact Hrun|].
  exact (proj1 (addOrderToTable_status_PREPARING sampleId)
           (loggedIn waiter) secondOrderOne sampleDb o db' Hrun).
Defined.

Lemma service_passes_orders (u : User) :
  hasRoleIn u [ADMIN; MANAGER; WAITER] ->
  negb (includes ["ADMIN"; "MANAGER"; "WAITER"] (roleOrEmpty u)) = false.
Proof.
  intros Hrole. apply negb_false_iff.
  exact (proj2 (includes_roleOrEmpty u [ADMIN; MANAGER; WAITER]) Hrole).
Qed.

Lemma ordersNumbered_new (n : string) (os : list Order.t) (o : Order.t) :
  Order.orderNumber o = n ->
  List.length (ordersNumbered n (os ++ [o]))
  = S (List.length (ordersNumbered n os)).
Proof.
  intros Hn. unfold ordersNumbered. rewrite filter_app. simpl.
  rewrite Hn, String.eqb_refl, length_app. simpl. lia.
Qed.

Lemma ordersNumbered_stored (n : string) (os : list Order.t) (o : Order.t) :
  In o os -> Order.orderNumber o = n ->
  (1 <= List.length (ordersNumbered n os))%nat.
Proof.
  intros Hin Hn.
  assert (Hf : In o (ordersNumbered n os)).
  { unfold ordersNumbered. apply filter_In. split; [exact Hin|].
    now apply String.eqb_eq. }
  destruct (ordersNumbered n os); [contradiction | simpl; lia].
Qed.

(** C8. addOrderToTable does not check the orderNumber. Whenever an order
    with the orderNumber of the call is stored and the tableId names a
    stored table, the call of a user with role ADMIN, MANAGER or WAITER
    succeeds, it does not fail with Conflict: it has looked up the table,
    never the orders, and made the create; the stored orders are the
    earlier ones, the one with that orderNumber among them, followed by
    the order returned, which has the same orderNumber; so one more order
    than before carries that orderNumber, and at least two do. And there
    is such a state. *)
Theorem addOrderToTable_accepts_duplicate_orderNumber
  (newId : Db -> string) :
  (forall u args db o1,
     hasRoleIn u [ADMIN; MANAGER; WAITER] ->
     In o1 (orders db) ->
     Order.orderNumber o1 = AddOrderToTable.orderNumber args ->
     (exists t, In t (tables db) /\ id t = AddOrderToTable.tableId args) ->
     exists o2 db',
       addOrderToTable newId (loggedIn u) args db = (inr o2, db')
       /\ Order.orderNumber o2 = Order.orderNumber o1
       /\ orders db' = (orders db ++ [o2])%list
       /\ In o1 (orders db')
       /\ List.length
            (ordersNumbered (AddOrderToTable.orderNumber args) (orders db'))
          = S (List.length
                 (ordersNumbered (AddOrderToTable.orderNumber args)
                    (orders db)))
       /\ (2 <= List.length
                  (ordersNumbered (AddOrderToTable.orderNumber args)
                     (orders db')))%nat
       /\ tables db' = tables db
       /\ calls db' = (calls db ++ [TableFindUnique; OrderCreate])%list)
  /\
  (exists db args o1,
     In o1 (orders db)
     /\ Order.orderNumber o1 = AddOrderToTable.orderNumber args
     /\ exists t, In t (tables db) /\ id t = AddOrderToTable.tableId args).
Proof.
  split.
  - intros u args db o1 Hrole Hstored Hnumber Htable.
    apply service_passes_orders in Hrole.
    destruct (find_known_id _ _ Htable) as [t Hfind].
    unfold addOrderToTable, loggedIn. cbn [user]. rewrite Hrole.
    unfold table_findUnique, order_create, bind, ret. rewrite Hfind.
    do 2 eexists. split; [reflexivity|].
    cbn [tables orders calls called Order.orderNumber].
    pose proof (ordersNumbered_stored _ _ _ Hstored Hnumber) as Hone.
    split; [now symmetry|]. split; [reflexivity|].
    split; [apply in_or_app; now left|].
    split; [now apply ordersNumbered_new|].
    split; [rewrite ordersNumbered_new by reflexivity; lia|].
    split; [reflexivity|]. now rewrite <- app_assoc.
  - exists sampleDb, secondOrderOne, order1.
    split; [left; reflexivity|]. split; [reflexivity|].
    exists table7. split; [left|]; reflexivity.
Qed.

Lemma addOrderToTable_accepts_duplicate_orderNumber_witness :
  hasRoleIn waiter [ADMIN; MANAGER; WAITER]
  /\ In order1 (orders sampleDb)
  /\ Order.orderNumber order1 = AddOrderToTable.orderNumber secondOrderOne
  /\ (exists t, In t (tables sampleDb)
                /\ id t = AddOrderToTable.tableId secondOrderOne)
  /\ exists o2 db',
       addOrderToTable sampleId (loggedIn waiter) secondOrderOne sampleDb
       = (inr o2, db')
       /\ Order.orderNumber o2 = "ORD-1"
       /\ orders db' = [order1; o2].
Proof.
  assert (Hrole : hasRoleIn waiter [ADMIN; MANAGER; WAITER])
    by (right; right; left; reflexivity).
  assert (Hstored : In order1 (orders sampleDb)) by (left; reflexivity).
  assert (Htable : exists t, In t (tables sampleDb)
                             /\ id t = AddOrderToTable.tableId secondOrderOne)
    by (exists table7; split; [left|]; reflexivity).
  split; [exact Hrole|]. split; [exact Hstored|]. split; [reflexivity|].
  split; [exact Htable|].
  destruct (proj1 (addOrderToTable_accepts_duplicate_orderNumber sampleId)
              waiter secondOrderOne sampleDb order1 Hrole Hstored eq_refl
              Htable)
    as (o2 & db' & Hrun & Hnumber & Horders & _).
  exists o2, db'. split; [exact Hrun|]. split; [exact Hnumber|].
  exact Horders.
Defined.

(** * Further properties of the resolvers *)

(** ** More on rows *)

Lemma replaceFirst_keeps (p : Table -> bool) (t' x : Table) (l : list Table) :
  In x l -> p x = false -> In x (replaceFirst p t' l).
Proof.
  intros Hin Hp. induction l as [|a l IH]; [contradiction|].
  simpl. destruct Hin as [->|Hin].
  - rewrite Hp. now left.
  - destruct (p a); right; [assumption | now apply IH].
Qed.



Lemma replaceFirst_same (p : Table -> bool) (t : Table) (l : list Table) :
  find p l = Some t -> replaceFirst p t l = l.
Proof.
  induction l as [|a l IH]; simpl; [reflexivity|].
  destruct (p a).
  - now intros [= ->].
  - intros H. now rewrite IH.
Qed.

Lemma map_replaceFirst {B : Type} (f : Table -> B) (p : Table -> bool)
  (t t' : Table) (l : list Table) :
  find p l = Some t -> f t' = f t -> map f (replaceFirst p t' l) = map f l.
Proof.
  intros Hfind Hf. induction l as [|a l IH]; [reflexivity|].
  simpl in *. destruct (p a).
  - injection Hfind as ->. simpl. now rewrite Hf.
  - simpl. now rewrite IH.
Qed.

Lemma find_unknown_number (n : Z) (l : list Table) :
  (forall t, In t l -> tableNumber t <> n) ->
  find (matches (WhereTableNumber n)) l = None.
Proof.
  intros Hno. apply find_none_iff. intros t Ht. simpl.
  apply Z.eqb_neq. now apply Hno.
Qed.

Lemma staff_passes (u : User) :
  hasRoleIn u [ADMIN; MANAGER] ->
  negb (includes ["ADMIN"; "MANAGER"] (roleOrEmpty u)) = false.
Proof.
  intros Hrole. apply negb_false_iff.
  exact (proj2 (includes_roleOrEmpty u [ADMIN; MANAGER]) Hrole).
Qed.

Lemma service_passes (u : User) :
  hasRoleIn u [ADMIN; MANAGER; WAITER] ->
  negb (includes ["ADMIN"; "MANAGER"; "WAITER"] (roleOrEmpty u)) = false.
Proof.
  intros Hrole. apply negb_false_iff.
  exact (proj2 (includes_roleOrEmpty u [ADMIN; MANAGER; WAITER]) Hrole).
Qed.

Lemma move_stored (u : User) (n : Z) (p : JSON) (t : Table) (db : Db) :
  hasRoleIn u [ADMIN; MANAGER] ->
  find (matches (WhereTableNumber n)) (tables db) = Some t ->
  movePositionTable (loggedIn u) (MovePositionTable.mk n p) db
  = (inr (withPosition p t),
     mkDb (replaceFirst (matches (WhereTableNumber n)) (withPosition p t)
             (tables db))
       (orders db) (calls db ++ [TableFindUnique; TableUpdate])%list).
Proof.
  intros Hrole Hfind. apply staff_passes in Hrole.
  unfold movePositionTable, loggedIn. cbn [user]. rewrite Hrole.
  unfold table_findUnique, table_update, bind, ret.
  cbn [MovePositionTable.tableNumber MovePositionTable.position].
  rewrite Hfind. rewrite (proj1 (called_rows _ _)), Hfind.
  cbn. now rewrite <- app_assoc.
Qed.

(** ** movePositionTable *)

(** X1. For a user with role ADMIN or MANAGER and the tableNumber of a
    stored table, movePositionTable succeeds after one lookup and one
    update: the table returned is the stored one with the position given
    and every other field as it was, it is what the tableNumber finds
    afterwards, every table with another tableNumber is still stored, no
    table is added or removed, and the orders are as they were. *)
Theorem movePositionTable_moves_one_table
  (u : User) (n : Z) (p : JSON) (t : Table) (db : Db) :
  hasRoleIn u [ADMIN; MANAGER] ->
  find (matches (WhereTableNumber n)) (tables db) = Some t ->
  exists db',
    movePositionTable (loggedIn u) (MovePositionTable.mk n p) db
    = (inr (mkTable (id t) (tableNumber t) (diners t) (Some p) (areaId t)
              (reserved t) (specialRequests t)), db')
    /\ find (matches (WhereTableNumber n)) (tables db')
       = Some (mkTable (id t) (tableNumber t) (diners t) (Some p) (areaId t)
                 (reserved t) (specialRequests t))
    /\ (forall x, In x (tables db) -> tableNumber x <> n -> In x (tables db'))
    /\ map withoutPosition (tables db') = map withoutPosition (tables db)
    /\ orders db' = orders db
    /\ calls db' = (calls db ++ [TableFindUnique; TableUpdate])%list.
Proof.
  intros Hrole Hfind.
  assert (Hn : matches (WhereTableNumber n) t = true)
    by exact (proj2 (find_matches _ _ _ Hfind)).
  eexists. split; [exact (move_stored u n p t db Hrole Hfind)|].
  cbn [tables orders calls]. split; [|split; [|split; [|split]]].
  - apply find_replaceFirst with (t := t); assumption.
  - intros x Hx Hneq. apply replaceFirst_keeps; [exact Hx|].
    simpl. now apply Z.eqb_neq.
  - now apply map_replaceFirst with (t := t).
  - reflexivity.
  - reflexivity.
Qed.

Lemma movePositionTable_moves_one_table_witness :
  hasRoleIn manager [ADMIN; MANAGER]
  /\ find (matches (WhereTableNumber 8)) (tables sampleDb) = Some table8
  /\ exists db',
       movePositionTable (loggedIn manager)
         (MovePositionTable.mk 8 (xy 3 4)) sampleDb
       = (inr (mkTable "row1" 8 2 (Some (xy 3 4)) "terrace" true []), db')
       /\ orders db' = [order1].
Proof.
  assert (Hrole : hasRoleIn manager [ADMIN; MANAGER])
    by (right; left; reflexivity).
  split; [exact Hrole|]. split; [reflexivity|].
  destruct (movePositionTable_moves_one_table manager 8 (xy 3 4) table8
              sampleDb Hrole eq_refl)
    as (db' & Hrun & _ & _ & _ & Horders & _).
  exists db'. split; [exact Hrun | exact Horders].
Defined.

(** X2. For a user with role ADMIN or MANAGER and a tableNumber that no
    stored table has, movePositionTable fails with its own error, whose
    message carries the number in decimal; it has made its lookup and no
    update, and the tables and orders are as they were. *)
Theorem movePositionTable_unknown_number_not_found
  (u : User) (n : Z) (p : JSON) (db : Db) :
  hasRoleIn u [ADMIN; MANAGER] ->
  (forall t, In t (tables db) -> tableNumber t <> n) ->
  movePositionTable (loggedIn u) (MovePositionTable.mk n p) db
  = (inl (GraphQLError
            ("Table with tableNumber=" ++ numberToString n ++ " not found")),
     mkDb (tables db) (orders db) (calls db ++ [TableFindUnique])%list).
Proof.
  intros Hrole Hno. apply staff_passes in Hrole.
  unfold movePositionTable, loggedIn. cbn [user]. rewrite Hrole.
  unfold table_findUnique, bind, throw. cbn [MovePositionTable.tableNumber].
  now rewrite (find_unknown_number _ _ Hno).
Qed.

Lemma movePositionTable_unknown_number_not_found_witness :
  hasRoleIn admin [ADMIN; MANAGER]
  /\ (forall t, In t (tables sampleDb) -> tableNumber t <> (-3)%Z)
  /\ movePositionTable (loggedIn admin)
       (MovePositionTable.mk (-3) (xy 3 4)) sampleDb
     = (inl (GraphQLError "Table with tableNumber=-3 not found"),
        mkDb [table7; table8] [order1] [TableFindUnique]).
Proof.
  assert (Hrole : hasRoleIn admin [ADMIN; MANAGER]) by (left; reflexivity).
  assert (Hno : forall t, In t (tables sampleDb) -> tableNumber t <> (-3)%Z).
  { intros t [<-|[<-|[]]]; discriminate. }
  split; [exact Hrole|]. split; [exact Hno|].
  exact (movePositionTable_unknown_number_not_found admin (-3) (xy 3 4)
           sampleDb Hrole Hno).
Defined.

(** ** addOrderToTable on a table that is not stored *)

(** X3. For a user with role ADMIN, MANAGER or WAITER and a tableId that
    is the id of no stored table, addOrderToTable fails with the
    table-not-found error after its one lookup: no order is created and
    the tables are as they were. *)
Theorem addOrderToTable_unknown_table_creates_nothing
  (newId : Db -> string) (u : User) (args : AddOrderToTable.Args) (db : Db) :
  hasRoleIn u [ADMIN; MANAGER; WAITER] ->
  (forall t, In t (tables db) -> id t <> AddOrderToTable.tableId args) ->
  addOrderToTable newId (loggedIn u) args db
  = (inl (GraphQLError "Table not found"),
     mkDb (tables db) (orders db) (calls db ++ [TableFindUnique])%list).
Proof.
  intros Hrole Hno. apply service_passes in Hrole.
  unfold addOrderToTable, loggedIn. cbn [user]. rewrite Hrole.
  unfold table_findUnique, bind, throw.
  now rewrite (find_unknown_id _ _ Hno).
Qed.

Lemma addOrderToTable_unknown_table_creates_nothing_witness :
  hasRoleIn waiter [ADMIN; MANAGER; WAITER]
  /\ (forall t, In t (tables sampleDb) -> id t <> "ORD-1")
  /\ addOrderToTable sampleId (loggedIn waiter)
       (AddOrderToTable.mk "ORD-1" "ORD-2" (JArray []) "Guest" "guest@local"
          2 undefined undefined 12 undefined) sampleDb
     = (inl (GraphQLError "Table not found"),
        mkDb [table7; table8] [order1] [TableFindUnique]).
Proof.
  assert (Hrole : hasRoleIn waiter [ADMIN; MANAGER; WAITER])
    by (right; right; left; reflexivity).
  assert (Hno : forall t, In t (tables sampleDb) -> id t <> "ORD-1").
  { intros t [<-|[<-|[]]]; discriminate. }
  split; [exact Hrole|]. split; [exact Hno|].
  exact (addOrderToTable_unknown_table_creates_nothing sampleId waiter
           (AddOrderToTable.mk "ORD-1" "ORD-2" (JArray []) "Guest"
              "guest@local" 2 undefined undefined 12 undefined)
           sampleDb Hrole Hno).
Defined.

(** ** What each resolver can do to the rows *)

Ltac by_user c :=
  destruct (user c) as [?u|]; [|simpl; auto];
  try match goal with
    | |- context [if ?b then _ else _] => destruct b; [simpl; auto|]
    end.

Lemma addTable_rows
  (newId : Db -> string) (positionDefault : option JSON)
  (ctx : Context) (args : AddTable.Args) (db : Db) :
  orders (snd (addTable newId positionDefault ctx args db)) = orders db
  /\ (tables (snd (addTable newId positionDefault ctx args db))
      = tables db
      \/ exists t,
           tables (snd (addTable newId positionDefault ctx args db))
           = (tables db ++ [t])%list
           /\ tableNumber t = AddTable.tableNumber args
           /\ hasTableNumber (AddTable.tableNumber args) (tables db) = false).
Proof.
  unfold addTable. by_user ctx.
  unfold table_findFirst, table_create, bind, throw, ret.
  destruct (find _ (tables db)); [simpl; auto|].
  rewrite (proj1 (called_rows _ _)). cbn [create_tableNumber].
  destruct (hasTableNumber _ _) eqn:Hn; [simpl; auto | simpl].
  split; [reflexivity|]. right. eexists. repeat split.
Qed.

Lemma editTable_rows (ctx : Context) (args : EditTable.Args) (db : Db) :
  orders (snd (editTable ctx args db)) = orders db
  /\ (tables (snd (editTable ctx args db)) = tables db
      \/ exists t,
           find (matches (WhereId (EditTable.id args))) (tables db) = Some t
           /\ tables (snd (editTable ctx args db))
              = replaceFirst (matches (WhereId (EditTable.id args)))
                  (applyUpdate (editData args) t) (tables db)
           /\ match update_tableNumber (editData args) with
              | Some n =>
                  hasTableNumber n
                    (removeFirst (matches (WhereId (EditTable.id args)))
                       (tables db)) = false
              | None => True
              end).
Proof.
  unfold editTable. fold (editData args). by_user ctx.
  unfold table_update, bind, ret.
  destruct (find _ (tables db)) as [t|] eqn:Hfind; [|simpl; auto].
  destruct (update_tableNumber (editData args)) as [n|] eqn:Hn.
  - destruct (hasTableNumber n _) eqn:Htaken; [simpl; auto | simpl].
    split; [reflexivity|]. right. exists t. repeat split.
  - simpl. split; [reflexivity|]. right. exists t. repeat split.
Qed.

Lemma deleteTable_rows
  (onDeleteTable : string -> list Order.t -> option (list Order.t))
  (ctx : Context) (args : DeleteTable.Args) (db : Db) :
  (tables (snd (deleteTable onDeleteTable ctx args db)) = tables db
   /\ orders (snd (deleteTable onDeleteTable ctx args db)) = orders db)
  \/ tables (snd (deleteTable onDeleteTable ctx args db))
     = removeFirst (matches (WhereId (DeleteTable.id args))) (tables db).
Proof.
  unfold deleteTable. by_user ctx.
  unfold table_delete, bind, ret.
  destruct (find _ (tables db)) as [t|]; [|simpl; auto].
  destruct (onDeleteTable _ _); simpl; auto.
Qed.

Lemma toggleTableReservation_rows
  (ctx : Context) (args : ToggleTableReservation.Args) (db : Db) :
  orders (snd (toggleTableReservation ctx args db)) = orders db
  /\ (tables (snd (toggleTableReservation ctx args db)) = tables db
      \/ exists t,
           find (matches (WhereId (ToggleTableReservation.id args)))
             (tables db) = Some t
           /\ tables (snd (toggleTableReservation ctx args db))
              = replaceFirst
                  (matches (WhereId (ToggleTableReservation.id args)))
                  (withReserved (ToggleTableReservation.reserved args) t)
                  (tables db)).
Proof.
  unfold toggleTableReservation. by_user ctx.
  unfold table_findUnique, table_update, bind, throw, ret.
  destruct (find _ (tables db)) as [t|] eqn:Hfind; [|simpl; auto].
  rewrite (proj1 (called_rows _ _)), Hfind. simpl.
  split; [reflexivity|]. right. exists t. split; reflexivity.
Qed.

Lemma movePositionTable_rows
  (ctx : Context) (args : MovePositionTable.Args) (db : Db) :
  orders (snd (movePositionTable ctx args db)) = orders db
  /\ (tables (snd (movePositionTable ctx args db)) = tables db
      \/ exists t,
           find (matches (WhereTableNumber (MovePositionTable.tableNumber args)))
             (tables db) = Some t
           /\ tables (snd (movePositionTable ctx args db))
              = replaceFirst
                  (matches
                     (WhereTableNumber (MovePositionTable.tableNumber args)))
                  (withPosition (MovePositionTable.position args) t)
                  (tables db)).
Proof.
  unfold movePositionTable. by_user ctx.
  unfold table_findUnique, table_update, bind, throw, ret.
  destruct (find _ (tables db)) as [t|] eqn:Hfind; [|simpl; auto].
  rewrite (proj1 (called_rows _ _)), Hfind. simpl.
  split; [reflexivity|]. right. exists t. split; reflexivity.
Qed.

Lemma addOrderToTable_rows
  (newId : Db -> string) (ctx : Context) (args : AddOrderToTable.Args)
  (db : Db) :
  tables (snd (addOrderToTable newId ctx args db)) = tables db
  /\ (orders (snd (addOrderToTable newId ctx args db)) = orders db
      \/ exists o t,
           orders (snd (addOrderToTable newId ctx args db))
           = (orders db ++ [o])%list
           /\ Order.tableId o = AddOrderToTable.tableId args
           /\ find (matches (WhereId (AddOrderToTable.tableId args)))
                (tables db) = Some t).
Proof.
  unfold addOrderToTable. by_user ctx.
  unfold table_findUnique, order_create, bind, throw, ret.
  destruct (find _ (tables db)) as [t|] eqn:Hfind; [|simpl; auto].
  simpl. split; [reflexivity|]. right. do 2 eexists. repeat split.
Qed.

Lemma snd_payload {A : Type} (f : A -> Payload) (m : Async A) (db : Db) :
  snd (payload f m db) = snd (m db).
Proof. unfold payload. now destruct (m db) as [[e|a] db']. Qed.

(** ** Every mutation *)

Ltac settle_failure :=
  let H := fresh "H" in
  intros H;
  first [ discriminate H | injection H as <- <-; split; reflexivity ].

(** X4. Whatever the operation, the context and the arguments, a call
    that fails leaves the stored tables and orders exactly as they were:
    no resolver writes and then throws. *)
Theorem failed_mutation_leaves_rows
  (newId : Db -> string) (positionDefault : option JSON)
  (onDeleteTable : string -> list Order.t -> option (list Order.t))
  (ctx : Context) (m : Mutation) (db : Db) (e : Error) (db' : Db) :
  resolve newId positionDefault onDeleteTable ctx m db = (inl e, db') ->
  tables db' = tables db /\ orders db' = orders db.
Proof.
  destruct m; run_resolver;
    (destruct (user ctx) as [u|]; [|settle_failure]);
    split_outcome; settle_failure.
Qed.

Lemma failed_mutation_leaves_rows_witness :
  resolve sampleId None keepOrders (loggedIn admin)
    (EditTableCall
       (EditTable.mk "row0" (val 8%Z) (val 6%Z) undefined undefined undefined
          undefined)) sampleDb
  = (inl P2002, mkDb [table7; table8] [order1] [TableUpdate])
  /\ tables (mkDb [table7; table8] [order1] [TableUpdate]) = tables sampleDb
  /\ orders (mkDb [table7; table8] [order1] [TableUpdate]) = orders sampleDb.
Proof.
  assert (Hrun : resolve sampleId None keepOrders (loggedIn admin)
                   (EditTableCall
                      (EditTable.mk "row0" (val 8%Z) (val 6%Z) undefined
                         undefined undefined undefined)) sampleDb
                 = (inl P2002, mkDb [table7; table8] [order1] [TableUpdate]))
    by reflexivity.
  split; [exact Hrun|].
  exact (failed_mutation_leaves_rows sampleId None keepOrders _ _ _ _ _ Hrun).
Defined.

(** X5. Whatever the operation, the context and the arguments, a call
    makes at most two calls to the persistence client, and when it makes
    two the first is a read: there is at most one write per call, and
    nothing is read or written after it. *)
Theorem at_most_one_write_and_last
  (newId : Db -> string) (positionDefault : option JSON)
  (onDeleteTable : string -> list Order.t -> option (list Order.t))
  (ctx : Context) (m : Mutation) (db : Db) :
  exists new,
    calls (snd (resolve newId positionDefault onDeleteTable ctx m db))
    = (calls db ++ new)%list
    /\ oneWriteLast new = true.
Proof.
  destruct m; run_resolver;
    (destruct (user ctx) as [u|];
     [|exists []; simpl; rewrite app_nil_r; split; reflexivity]);
    split_outcome; unfold called; simpl; rewrite <- ?app_assoc; simpl;
    first [ exists []; rewrite app_nil_r; split; reflexivity
          | eexists; split; reflexivity ].
Qed.

(** X6. Only a user with role ADMIN or MANAGER can change the stored
    tables: for any other user, and with no user, every operation leaves
    the list of tables exactly as it was. In particular a WAITER, who may
    add orders, never changes a table. *)
Theorem tables_change_only_for_admin_and_manager
  (newId : Db -> string) (positionDefault : option JSON)
  (onDeleteTable : string -> list Order.t -> option (list Order.t))
  (ctx : Context) (m : Mutation) (db : Db) :
  (forall u, user ctx = Some u -> ~ hasRoleIn u [ADMIN; MANAGER]) ->
  tables (snd (resolve newId positionDefault onDeleteTable ctx m db))
  = tables db.
Proof.
  intros Hout. destruct ctx as [[[[r|]]|]].
  - destruct r;
      try (exfalso; apply (Hout _ eq_refl); unfold hasRoleIn; simpl;
           solve [auto]);
      destruct m; run_resolver; split_outcome; reflexivity.
  - destruct m; reflexivity.
  - destruct m; reflexivity.
Qed.

Lemma tables_change_only_for_admin_and_manager_witness :
  (forall u, user (loggedIn waiter) = Some u -> ~ hasRoleIn u [ADMIN; MANAGER])
  /\ tables (snd (resolve sampleId None keepOrders (loggedIn waiter)
                    (AddOrderToTableCall secondOrderOne) sampleDb))
     = tables sampleDb.
Proof.
  assert (Hout : forall u, user (loggedIn waiter) = Some u ->
                           ~ hasRoleIn u [ADMIN; MANAGER]).
  { intros u [= <-] [H|[H|[]]]; discriminate H. }
  split; [exact Hout|].
  exact (tables_change_only_for_admin_and_manager sampleId None keepOrders
           (loggedIn waiter) (AddOrderToTableCall secondOrderOne) sampleDb
           Hout).
Defined.

Lemma not_admin_refused (u : User) :
  ~ hasRoleIn u [ADMIN] -> roleIsNot u "ADMIN" = true.
Proof.
  intros Hout. destruct (roleIsNot u "ADMIN") eqn:E; [reflexivity|].
  exfalso. apply Hout. now apply roleIsNot_ADMIN.
Qed.

(** X7. Only a user with role ADMIN can remove a stored table or change
    anything of it but its position: for any other user, and with no
    user, after every operation the stored tables are, position apart,
    the ones stored before, in the same order, followed by the tables
    the call has added. *)
Theorem only_admin_removes_or_edits
  (newId : Db -> string) (positionDefault : option JSON)
  (onDeleteTable : string -> list Order.t -> option (list Order.t))
  (ctx : Context) (m : Mutation) (db : Db) :
  (forall u, user ctx = Some u -> ~ hasRoleIn u [ADMIN]) ->
  exists added,
    map withoutPosition
      (tables (snd (resolve newId positionDefault onDeleteTable ctx m db)))
    = (map withoutPosition (tables db) ++ added)%list.
Proof.
  intros Hout.
  assert (Hsame : forall l : list Table, exists added : list Table,
             map withoutPosition l = (map withoutPosition l ++ added)%list)
    by (intros l; exists []; now rewrite app_nil_r).
  destruct m; unfold resolve; rewrite snd_payload.
  - destruct (addTable_rows newId positionDefault ctx args db)
      as [_ [-> | (t & -> & _)]]; [apply Hsame|].
    exists [withoutPosition t]. apply map_app.
  - unfold editTable. destruct (user ctx) as [u|] eqn:Hu; [|apply Hsame].
    rewrite (not_admin_refused u (Hout u eq_refl)). apply Hsame.
  - unfold deleteTable. destruct (user ctx) as [u|] eqn:Hu; [|apply Hsame].
    rewrite (not_admin_refused u (Hout u eq_refl)). apply Hsame.
  - unfold toggleTableReservation.
    destruct (user ctx) as [u|] eqn:Hu; [|apply Hsame].
    rewrite (not_admin_refused u (Hout u eq_refl)). apply Hsame.
  - rewrite (proj1 (addOrderToTable_rows newId ctx args db)). apply Hsame.
  - destruct (movePositionTable_rows ctx args db)
      as [_ [-> | (t & Hfind & ->)]]; [apply Hsame|].
    exists []. rewrite app_nil_r.
    now apply map_replaceFirst with (t := t).
Qed.

Lemma only_admin_removes_or_edits_witness :
  (forall u, user (loggedIn manager) = Some u -> ~ hasRoleIn u [ADMIN])
  /\ exists added,
       map withoutPosition
         (tables (snd (resolve sampleId None keepOrders (loggedIn manager)
                         (MovePositionTableCall
                            (MovePositionTable.mk 7 (xy 1 1))) sampleDb)))
       = (map withoutPosition (tables sampleDb) ++ added)%list.
Proof.
  assert (Hout : forall u, user (loggedIn manager) = Some u ->
                           ~ hasRoleIn u [ADMIN]).
  { intros u [= <-] [H|[]]. discriminate H. }
  split; [exact Hout|].
  exact (only_admin_removes_or_edits sampleId None keepOrders
           (loggedIn manager)
           (MovePositionTableCall (MovePositionTable.mk 7 (xy 1 1)))
           sampleDb Hout).
Defined.

(** X8. No operation but deleteTable removes or changes a stored order,
    and none but addOrderToTable adds one: after any other operation the
    orders are as they were, and after addOrderToTable they are as they
    were or followed by one new order, linked to the tableId given. *)
Theorem orders_only_appended
  (newId : Db -> string) (positionDefault : option JSON)
  (onDeleteTable : string -> list Order.t -> option (list Order.t))
  (ctx : Context) (m : Mutation) (db : Db) :
  isDeleteTable m = false ->
  orders (snd (resolve newId positionDefault onDeleteTable ctx m db))
  = orders db
  \/ exists args o,
       m = AddOrderToTableCall args
       /\ orders (snd (resolve newId positionDefault onDeleteTable ctx m db))
          = (orders db ++ [o])%list
       /\ Order.tableId o = AddOrderToTable.tableId args.
Proof.
  intros Hm. destruct m; try discriminate Hm;
    unfold resolve; rewrite snd_payload.
  - left. apply addTable_rows.
  - left. apply editTable_rows.
  - left. apply toggleTableReservation_rows.
  - destruct (addOrderToTable_rows newId ctx args db)
      as [_ [H | (o & t & H & Hid & _)]]; [now left|].
    right. exists args, o. repeat split; assumption.
  - left. apply movePositionTable_rows.
Qed.

Lemma orders_only_appended_witness :
  isDeleteTable (AddOrderToTableCall secondOrderOne) = false
  /\ (orders (snd (resolve sampleId None keepOrders (loggedIn waiter)
                     (AddOrderToTableCall secondOrderOne) sampleDb))
      = orders sampleDb
      \/ exists args o,
           AddOrderToTableCall secondOrderOne = AddOrderToTableCall args
           /\ orders (snd (resolve sampleId None keepOrders (loggedIn waiter)
                             (AddOrderToTableCall secondOrderOne) sampleDb))
              = (orders sampleDb ++ [o])%list
           /\ Order.tableId o = AddOrderToTable.tableId args).
Proof.
  split; [reflexivity|].
  exact (orders_only_appended sampleId None keepOrders (loggedIn waiter)
           (AddOrderToTableCall secondOrderOne) sampleDb eq_refl).
Defined.

(** ** Conditions that the mutations keep *)

Lemma hasTableNumber_none (n : Z) (l : list Table) :
  hasTableNumber n l = false -> forall x, In x l -> tableNumber x <> n.
Proof.
  intros Hno x Hx Heq.
  assert (Hyes : hasTableNumber n l = true)
    by (apply hasTableNumber_true; now exists x).
  congruence.
Qed.

Lemma table_create_appends
  (newId : Db -> string) (positionDefault : option JSON) :
  createAppends (table_create newId positionDefault).
Proof.
  intros data db. unfold table_create.
  destruct (hasTableNumber _ _); simpl; [reflexivity | now split].
Qed.

Lemma table_create_unconstrained_appends (newId : Db -> string) :
  createAppends (table_create_unconstrained newId).
Proof. intros data db. simpl. now split. Qed.



Lemma linked_by_ids (ts ts' : list Table) (os : list Order.t) :
  (forall i, In i (map id ts) -> In i (map id ts')) ->
  (forall o, In o os -> exists t, In t ts /\ id t = Order.tableId o) ->
  forall o, In o os -> exists t, In t ts' /\ id t = Order.tableId o.
Proof.
  intros Hids Hlinked o Ho. destruct (Hlinked o Ho) as [t [Ht Hid]].
  assert (Hin : In (Order.tableId o) (map id ts'))
    by (apply Hids; rewrite <- Hid; now apply in_map).
  apply in_map_iff in Hin. destruct Hin as [t' [Hid' Ht']]. now exists t'.
Qed.

(** X10. No operation but deleteTable leaves an order without its table:
    when every stored order is linked to a stored table before a call
    other than deleteTable, every stored order is after it, the order
    that addOrderToTable may have added included. *)
Theorem orders_stay_linked
  (newId : Db -> string) (positionDefault : option JSON)
  (onDeleteTable : string -> list Order.t -> option (list Order.t))
  (ctx : Context) (m : Mutation) (db : Db) :
  isDeleteTable m = false ->
  linked db ->
  linked (snd (resolve newId positionDefault onDeleteTable ctx m db)).
Proof.
  unfold linked. intros Hm Hlinked.
  destruct m; try discriminate Hm; unfold resolve; rewrite snd_payload.
  - destruct (addTable_rows newId positionDefault ctx args db)
      as [-> [-> | (t & -> & _)]]; [assumption|].
    apply linked_by_ids with (ts := tables db); [|assumption].
    intros i Hi. rewrite map_app. apply in_or_app. now left.
  - destruct (editTable_rows ctx args db)
      as [-> [-> | (t & Hfind & -> & _)]]; [assumption|].
    apply linked_by_ids with (ts := tables db); [|assumption].
    intros i Hi. now rewrite map_replaceFirst with (t := t).
  - destruct (toggleTableReservation_rows ctx args db)
      as [-> [-> | (t & Hfind & ->)]]; [assumption|].
    apply linked_by_ids with (ts := tables db); [|assumption].
    intros i Hi. now rewrite map_replaceFirst with (t := t).
  - destruct (addOrderToTable_rows newId ctx args db)
      as [-> [-> | (o' & t & -> & Hid & Hfind)]]; [assumption|].
    intros o Ho. apply in_app_or in Ho. destruct Ho as [Ho|[<-|[]]].
    + now apply Hlinked.
    + exists t. destruct (find_matches _ _ _ Hfind) as [Ht Hmatch].
      split; [assumption|]. rewrite Hid. now apply String.eqb_eq.
  - destruct (movePositionTable_rows ctx args db)
      as [-> [-> | (t & Hfind & ->)]]; [assumption|].
    apply linked_by_ids with (ts := tables db); [|assumption].
    intros i Hi. now rewrite map_replaceFirst with (t := t).
Qed.

Lemma orders_stay_linked_witness :
  isDeleteTable (AddOrderToTableCall secondOrderOne) = false
  /\ linked sampleDb
  /\ linked (snd (resolve sampleId None keepOrders (loggedIn waiter)
                    (AddOrderToTableCall secondOrderOne) sampleDb)).
Proof.
  assert (Hlinked : linked sampleDb).
  { intros o [<-|[]]. exists table7. split; [left|]; reflexivity. }
  split; [reflexivity|]. split; [exact Hlinked|].
  exact (orders_stay_linked sampleId None keepOrders (loggedIn waiter)
           (AddOrderToTableCall secondOrderOne) sampleDb eq_refl Hlinked).
Defined.

(** ** Calls in sequence *)

Lemma addTable_success
  (newId : Db -> string) (positionDefault : option JSON)
  (ctx : Context) (args : AddTable.Args) (db : Db) (t : Table) (db' : Db) :
  addTable newId positionDefault ctx args db = (inr t, db') ->
  tables db' = (tables db ++ [t])%list
  /\ orders db' = orders db
  /\ tableNumber t = AddTable.tableNumber args
  /\ hasTableNumber (AddTable.tableNumber args) (tables db) = false.
Proof.
  unfold addTable. destruct (user ctx) as [u|]; [|discriminate].
  destruct (negb _); [discriminate|].
  unfold table_findFirst, table_create, bind, throw, ret.
  destruct (find _ (tables db)); [discriminate|].
  rewrite (proj1 (called_rows _ _)). cbn [create_tableNumber].
  destruct (hasTableNumber _ _) eqn:Hfree; [discriminate|].
  intros [= <- <-]. repeat split.
Qed.

Lemma find_app_new (p : Table -> bool) (t : Table) (l : list Table) :
  find p l = None -> p t = true -> find p (l ++ [t]) = Some t.
Proof.
  intros Hnone Hp. induction l as [|a l IH]; simpl in *.
  - now rewrite Hp.
  - destruct (p a); [discriminate | now apply IH].
Qed.

(** X11. Once addTable has succeeded for a tableNumber, a further
    addTable for that number, by whichever authorized user and with
    whatever other arguments, fails with the already-exists error after
    its lookup and changes no row: run one after the other, at most one of
    two such calls creates a table. *)
Theorem addTable_again_conflicts
  (newId : Db -> string) (positionDefault : option JSON)
  (ctx : Context) (args : AddTable.Args) (db : Db) (t : Table) (db1 : Db)
  (u : User) (again : AddTable.Args) :
  addTable newId positionDefault ctx args db = (inr t, db1) ->
  hasRoleIn u [ADMIN; MANAGER] ->
  AddTable.tableNumber again = AddTable.tableNumber args ->
  addTable newId positionDefault (loggedIn u) again db1
  = (inl (GraphQLError "A table with this tableNumber already exists"),
     mkDb (tables db1) (orders db1) (calls db1 ++ [TableFindFirst])%list).
Proof.
  intros Hrun Hrole Hsame.
  destruct (addTable_success _ _ _ _ _ _ _ Hrun) as (Htables & _ & Hn & _).
  apply staff_passes in Hrole.
  unfold addTable, loggedIn. cbn [user]. rewrite Hrole.
  unfold table_findFirst, bind, throw.
  destruct (find _ (tables db1)) eqn:Hfind; [reflexivity|].
  exfalso. apply find_tableNumber in Hfind.
  assert (Hyes : hasTableNumber (AddTable.tableNumber again) (tables db1)
                 = true).
  { apply hasTableNumber_true. exists t. split; [|congruence].
    rewrite Htables. apply in_or_app. right. now left. }
  congruence.
Qed.

Lemma addTable_again_conflicts_witness :
  exists t db1,
    addTable sampleId None (loggedIn manager) tableNine sampleDb = (inr t, db1)
    /\ hasRoleIn admin [ADMIN; MANAGER]
    /\ addTable sampleId None (loggedIn admin)
         (AddTable.mk 9 2 null "hall" (val true) undefined) db1
       = (inl (GraphQLError "A table with this tableNumber already exists"),
          mkDb (tables db1) (orders db1) (calls db1 ++ [TableFindFirst])%list).
Proof.
  assert (Hrole : hasRoleIn admin [ADMIN; MANAGER]) by (left; reflexivity).
  do 2 eexists.
  assert (Hrun : addTable sampleId None (loggedIn manager) tableNine sampleDb
                 = (inr (mkTable "row3" 9 4 None "terrace" false []),
                    mkDb [table7; table8;
                          mkTable "row3" 9 4 None "terrace" false []]
                      [order1] [TableFindFirst; TableCreate]))
    by reflexivity.
  split; [exact Hrun|]. split; [exact Hrole|].
  exact (addTable_again_conflicts sampleId None (loggedIn manager) tableNine
           sampleDb _ _ admin
           (AddTable.mk 9 2 null "hall" (val true) undefined)
           Hrun Hrole eq_refl).
Defined.

(** X12. A table that addTable has just created is the one its
    tableNumber finds: movePositionTable for that number, by an ADMIN or
    a MANAGER, then succeeds and returns the created table with the new
    position and every other field as created. *)
Theorem addTable_then_movePositionTable
  (newId : Db -> string) (positionDefault : option JSON)
  (ctx : Context) (args : AddTable.Args) (db : Db) (t : Table) (db1 : Db)
  (u : User) (p : JSON) :
  addTable newId positionDefault ctx args db = (inr t, db1) ->
  hasRoleIn u [ADMIN; MANAGER] ->
  exists db2,
    movePositionTable (loggedIn u)
      (MovePositionTable.mk (AddTable.tableNumber args) p) db1
    = (inr (mkTable (id t) (AddTable.tableNumber args) (AddTable.diners args)
              (Some p) (AddTable.areaId args)
              (coalesce (AddTable.reserved args) false)
              (coalesce (AddTable.specialRequests args) [])), db2)
    /\ tables db2
       = (tables db
          ++ [mkTable (id t) (AddTable.tableNumber args)
                (AddTable.diners args) (Some p) (AddTable.areaId args)
                (coalesce (AddTable.reserved args) false)
                (coalesce (AddTable.specialRequests args) [])])%list.
Proof.
  intros Hrun Hrole.
  destruct (addTable_success _ _ _ _ _ _ _ Hrun) as (Htables & _ & Hn & Hfree).
  assert (Hnone : find (matches (WhereTableNumber (AddTable.tableNumber args)))
                    (tables db) = None)
    by (apply find_unknown_number; now apply hasTableNumber_none).
  assert (Ht : matches (WhereTableNumber (AddTable.tableNumber args)) t = true)
    by (simpl; now apply Z.eqb_eq).
  assert (Hfind : find (matches (WhereTableNumber (AddTable.tableNumber args)))
                    (tables db1) = Some t)
    by (rewrite Htables; now apply find_app_new).
  assert (Hfields : withPosition p t
                    = mkTable (id t) (AddTable.tableNumber args)
                        (AddTable.diners args) (Some p)
                        (AddTable.areaId args)
                        (coalesce (AddTable.reserved args) false)
                        (coalesce (AddTable.specialRequests args) [])).
  { revert Hrun. unfold addTable. destruct (user ctx); [|discriminate].
    destruct (negb _); [discriminate|].
    unfold table_findFirst, table_create, bind, throw, ret.
    destruct (find _ (tables db)); [discriminate|].
    destruct (hasTableNumber _ _); [discriminate|].
    now intros [= <- _]. }
  eexists. rewrite (move_stored u _ p t db1 Hrole Hfind), Hfields.
  split; [reflexivity|]. cbn [tables]. rewrite Htables.
  clear - Hnone Ht. induction (tables db) as [|a l IH]; simpl in *.
  - now rewrite Ht.
  - destruct (Z.eqb (tableNumber a) (AddTable.tableNumber args));
      [discriminate|]. now rewrite IH.
Qed.

Lemma addTable_then_movePositionTable_witness :
  exists t db1 db2,
    addTable sampleId None (loggedIn admin) tableNine sampleDb = (inr t, db1)
    /\ hasRoleIn manager [ADMIN; MANAGER]
    /\ movePositionTable (loggedIn manager)
         (MovePositionTable.mk 9 (xy 5 6)) db1
       = (inr (mkTable "row3" 9 4 (Some (xy 5 6)) "terrace" false []), db2).
Proof.
  assert (Hrole : hasRoleIn manager [ADMIN; MANAGER])
    by (right; left; reflexivity).
  assert (Hrun : addTable sampleId None (loggedIn admin) tableNine sampleDb
                 = (inr (mkTable "row3" 9 4 None "terrace" false []),
                    mkDb [table7; table8;
                          mkTable "row3" 9 4 None "terrace" false []]
                      [order1] [TableFindFirst; TableCreate]))
    by reflexivity.
  destruct (addTable_then_movePositionTable sampleId None (loggedIn admin)
              tableNine sampleDb _ _ manager (xy 5 6) Hrun Hrole)
    as (db2 & Hmove & _).
  do 2 eexists. exists db2. split; [exact Hrun|]. split; [exact Hrole|].
  exact Hmove.
Defined.

Lemma edit_stored (u : User) (args : EditTable.Args) (t : Table) (db : Db) :
  hasRoleIn u [ADMIN] ->
  find (matches (WhereId (EditTable.id args))) (tables db) = Some t ->
  update_tableNumber (editData args) = None ->
  editTable (loggedIn u) args db
  = (inr (applyUpdate (editData args) t),
     mkDb (replaceFirst (matches (WhereId (EditTable.id args)))
             (applyUpdate (editData args) t) (tables db))
       (orders db) (calls db ++ [TableUpdate])%list).
Proof.
  intros Hrole Hfind Hnone. apply admin_passes in Hrole.
  unfold editTable, loggedIn. cbn [user]. rewrite Hrole.
  fold (editData args). unfold table_update, bind, ret.
  now rewrite Hfind, Hnone.
Qed.

(** X13. Setting the reservation of a stored table to the value it was
    just set to changes nothing: a second toggleTableReservation with the
    same id and value returns the same table as the first and leaves the
    tables and orders as the first left them. *)
Theorem toggleTableReservation_idempotent
  (u : User) (i : string) (b : bool) (t : Table) (db : Db) :
  hasRoleIn u [ADMIN] ->
  find (matches (WhereId i)) (tables db) = Some t ->
  exists r db1 db2,
    toggleTableReservation (loggedIn u) (ToggleTableReservation.mk i b) db
    = (inr r, db1)
    /\ toggleTableReservation (loggedIn u) (ToggleTableReservation.mk i b) db1
       = (inr r, db2)
    /\ reserved r = b
    /\ tables db2 = tables db1
    /\ orders db2 = orders db1.
Proof.
  intros Hrole Hfind.
  assert (Hi : matches (WhereId i) t = true)
    by exact (proj2 (find_matches _ _ _ Hfind)).
  assert (Hfind1 : find (matches (WhereId i))
                     (replaceFirst (matches (WhereId i)) (withReserved b t)
                        (tables db))
                   = Some (withReserved b t))
    by (apply find_replaceFirst with (t := t); assumption).
  pose proof (toggle_stored u i b (withReserved b t)
                (mkDb (replaceFirst (matches (WhereId i)) (withReserved b t)
                         (tables db))
                   (orders db)
                   (calls db ++ [TableFindUnique; TableUpdate])%list)
                Hrole Hfind1) as H2.
  cbn [tables orders calls] in H2. rewrite replaceFirst_twice in H2 by exact Hi.
  do 3 eexists. split; [exact (toggle_stored u i b t db Hrole Hfind)|].
  split; [exact H2|]. repeat split.
Qed.

Lemma toggleTableReservation_idempotent_witness :
  hasRoleIn admin [ADMIN]
  /\ find (matches (WhereId "row0")) (tables sampleDb) = Some table7
  /\ exists r db1 db2,
       toggleTableReservation (loggedIn admin)
         (ToggleTableReservation.mk "row0" true) sampleDb = (inr r, db1)
       /\ toggleTableReservation (loggedIn admin)
            (ToggleTableReservation.mk "row0" true) db1 = (inr r, db2)
       /\ reserved r = true
       /\ tables db2 = tables db1.
Proof.
  assert (Hrole : hasRoleIn admin [ADMIN]) by (left; reflexivity).
  split; [exact Hrole|]. split; [reflexivity|].
  destruct (toggleTableReservation_idempotent admin "row0" true table7
              sampleDb Hrole eq_refl)
    as (r & db1 & db2 & H1 & H2 & Hr & Ht & _).
  exists r, db1, db2. repeat split; assumption.
Defined.

(** X14. On the id of a stored table, toggleTableReservation and an
    editTable that gives reserved alone do the same for an ADMIN: they
    return the same table and leave the same tables and orders. On an id
    that is stored nowhere both fail and change no row, but not alike:
    toggleTableReservation, which looks the table up first, with its own
    table-not-found error, editTable with the persistence client's. *)
Theorem toggleTableReservation_as_editTable
  (u : User) (i : string) (b : bool) (db : Db) :
  hasRoleIn u [ADMIN] ->
  (forall t,
     find (matches (WhereId i)) (tables db) = Some t ->
     fst (toggleTableReservation (loggedIn u) (ToggleTableReservation.mk i b)
            db)
     = fst (editTable (loggedIn u) (onlyReserved i b) db)
     /\ tables (snd (toggleTableReservation (loggedIn u)
                       (ToggleTableReservation.mk i b) db))
        = tables (snd (editTable (loggedIn u) (onlyReserved i b) db))
     /\ orders (snd (toggleTableReservation (loggedIn u)
                       (ToggleTableReservation.mk i b) db))
        = orders (snd (editTable (loggedIn u) (onlyReserved i b) db)))
  /\
  ((forall t, In t (tables db) -> id t <> i) ->
   toggleTableReservation (loggedIn u) (ToggleTableReservation.mk i b) db
   = (inl (GraphQLError "Table not found"),
      mkDb (tables db) (orders db) (calls db ++ [TableFindUnique])%list)
   /\ editTable (loggedIn u) (onlyReserved i b) db
      = (inl (PrismaClientKnownRequestError "P2025"),
         mkDb (tables db) (orders db) (calls db ++ [TableUpdate])%list)).
Proof.
  intros Hrole. split.
  - intros t Hfind.
    rewrite (toggle_stored u i b t db Hrole Hfind).
    rewrite (edit_stored u (onlyReserved i b) t db Hrole Hfind eq_refl).
    repeat split.
  - intros Hno. apply admin_passes in Hrole.
    unfold toggleTableReservation, editTable, loggedIn. cbn [user].
    rewrite Hrole.
    unfold table_findUnique, table_update, bind, throw.
    cbn [ToggleTableReservation.id EditTable.id onlyReserved].
    rewrite (find_unknown_id _ _ Hno). split; reflexivity.
Qed.

Lemma toggleTableReservation_as_editTable_witness :
  (hasRoleIn admin [ADMIN]
   /\ find (matches (WhereId "row0")) (tables sampleDb) = Some table7
   /\ fst (toggleTableReservation (loggedIn admin)
             (ToggleTableReservation.mk "row0" true) sampleDb)
      = fst (editTable (loggedIn admin) (onlyReserved "row0" true) sampleDb))
  /\
  ((forall t, In t (tables sampleDb) -> id t <> "row9")
   /\ fst (toggleTableReservation (loggedIn admin)
             (ToggleTableReservation.mk "row9" true) sampleDb)
      = inl (GraphQLError "Table not found")
   /\ fst (editTable (loggedIn admin) (onlyReserved "row9" true) sampleDb)
      = inl (PrismaClientKnownRequestError "P2025")).
Proof.
  assert (Hrole : hasRoleIn admin [ADMIN]) by (left; reflexivity).
  assert (Hno : forall t, In t (tables sampleDb) -> id t <> "row9").
  { intros t [<-|[<-|[]]]; discriminate. }
  destruct (toggleTableReservation_as_editTable admin "row0" true sampleDb
              Hrole) as [Hstored _].
  destruct (toggleTableReservation_as_editTable admin "row9" true sampleDb
              Hrole) as [_ Hmissing].
  split.
  - split; [exact Hrole|]. split; [reflexivity|].
    exact (proj1 (Hstored table7 eq_refl)).
  - split; [exact Hno|]. destruct (Hmissing Hno) as [Htoggle Hedit].
    split.
    + exact (f_equal fst Htoggle).
    + exact (f_equal fst Hedit).
Defined.

Lemma replaceFirst_same_row (p q : Table -> bool) (t t' : Table)
  (l : list Table) :
  find p l = Some t -> find q l = Some t ->
  replaceFirst p t' l = replaceFirst q t' l.
Proof.
  induction l as [|a l IH]; simpl; [reflexivity|].
  destruct (p a) eqn:Hp, (q a) eqn:Hq; intros Hfp Hfq.
  - reflexivity.
  - injection Hfp as ->. apply find_some in Hfq. destruct Hfq as [_ Hqt].
    congruence.
  - injection Hfq as ->. apply find_some in Hfp. destruct Hfp as [_ Hpt].
    congruence.
  - f_equal. now apply IH.
Qed.

(** X15. For an ADMIN, movePositionTable by tableNumber and an editTable
    by id that gives position alone do the same whenever the number and
    the id find the same stored table: they return the same table and
    leave the same tables and orders. *)
Theorem movePositionTable_as_editTable
  (u : User) (n : Z) (i : string) (p : JSON) (t : Table) (db : Db) :
  hasRoleIn u [ADMIN] ->
  find (matches (WhereTableNumber n)) (tables db) = Some t ->
  find (matches (WhereId i)) (tables db) = Some t ->
  fst (movePositionTable (loggedIn u) (MovePositionTable.mk n p) db)
  = fst (editTable (loggedIn u) (onlyPosition i p) db)
  /\ tables (snd (movePositionTable (loggedIn u) (MovePositionTable.mk n p)
                    db))
     = tables (snd (editTable (loggedIn u) (onlyPosition i p) db))
  /\ orders (snd (movePositionTable (loggedIn u) (MovePositionTable.mk n p)
                    db))
     = orders (snd (editTable (loggedIn u) (onlyPosition i p) db)).
Proof.
  intros Hrole Hnumber Hid.
  assert (Hstaff : hasRoleIn u [ADMIN; MANAGER]).
  { unfold hasRoleIn in *. destruct (role u) as [r|]; [|contradiction].
    destruct Hrole as [<-|[]]. now left. }
  rewrite (move_stored u n p t db Hstaff Hnumber).
  rewrite (edit_stored u (onlyPosition i p) t db Hrole Hid eq_refl).
  cbn [fst snd tables orders EditTable.id onlyPosition].
  repeat split.
  apply replaceFirst_same_row with (t := t); assumption.
Qed.

Lemma movePositionTable_as_editTable_witness :
  hasRoleIn admin [ADMIN]
  /\ find (matches (WhereTableNumber 8)) (tables sampleDb) = Some table8
  /\ find (matches (WhereId "row1")) (tables sampleDb) = Some table8
  /\ fst (movePositionTable (loggedIn admin)
            (MovePositionTable.mk 8 (xy 3 4)) sampleDb)
     = fst (editTable (loggedIn admin) (onlyPosition "row1" (xy 3 4))
              sampleDb).
Proof.
  assert (Hrole : hasRoleIn admin [ADMIN]) by (left; reflexivity).
  split; [exact Hrole|]. split; [reflexivity|]. split; [reflexivity|].
  exact (proj1 (movePositionTable_as_editTable admin 8 "row1" (xy 3 4) table8
                  sampleDb Hrole eq_refl eq_refl)).
Defined.

(** ** editTable: edge cases *)

Lemma applyUpdate_noData (t : Table) : applyUpdate noData t = t.
Proof. now destruct t. Qed.

(** X16. An editTable by an ADMIN on the id of a stored table in which
    every field is left out or null is no edit: the update is still
    made, the stored table is returned as it is, and the tables and
    orders are exactly as they were. *)
Theorem editTable_nothing_given
  (u : User) (args : EditTable.Args) (t : Table) (db : Db) :
  hasRoleIn u [ADMIN] ->
  find (matches (WhereId (EditTable.id args))) (tables db) = Some t ->
  editData args = noData ->
  editTable (loggedIn u) args db
  = (inr t, mkDb (tables db) (orders db) (calls db ++ [TableUpdate])%list).
Proof.
  intros Hrole Hfind Hdata.
  rewrite (edit_stored u args t db Hrole Hfind)
    by (rewrite Hdata; reflexivity).
  rewrite Hdata, applyUpdate_noData.
  now rewrite (replaceFirst_same _ _ _ Hfind).
Qed.

Lemma editTable_nothing_given_witness :
  hasRoleIn admin [ADMIN]
  /\ find (matches (WhereId "row0")) (tables sampleDb) = Some table7
  /\ editTable (loggedIn admin)
       (EditTable.mk "row0" null undefined null undefined null undefined)
       sampleDb
     = (inr table7, mkDb [table7; table8] [order1] [TableUpdate]).
Proof.
  assert (Hrole : hasRoleIn admin [ADMIN]) by (left; reflexivity).
  split; [exact Hrole|]. split; [reflexivity|].
  exact (editTable_nothing_given admin
           (EditTable.mk "row0" null undefined null undefined null undefined)
           table7 sampleDb Hrole eq_refl eq_refl).
Defined.

(** X17. editTable, toggleTableReservation and movePositionTable never
    add or remove a table and never change an id: whatever the context
    and the arguments, the ids of the stored tables, in order, are after
    the call what they were before; after the last two so are the
    tableNumbers. *)
Theorem updates_keep_ids (ctx : Context) (db : Db) :
  (forall args,
     map id (tables (snd (editTable ctx args db))) = map id (tables db))
  /\ (forall args,
        map id (tables (snd (toggleTableReservation ctx args db)))
        = map id (tables db)
        /\ map tableNumber (tables (snd (toggleTableReservation ctx args db)))
           = map tableNumber (tables db))
  /\ (forall args,
        map id (tables (snd (movePositionTable ctx args db)))
        = map id (tables db)
        /\ map tableNumber (tables (snd (movePositionTable ctx args db)))
           = map tableNumber (tables db)).
Proof.
  split; [|split]; intros args.
  - destruct (editTable_rows ctx args db)
      as [_ [-> | (t & Hfind & -> & _)]]; [reflexivity|].
    now apply map_replaceFirst with (t := t).
  - destruct (toggleTableReservation_rows ctx args db)
      as [_ [-> | (t & Hfind & ->)]]; [now split|].
    split; now apply map_replaceFirst with (t := t).
  - destruct (movePositionTable_rows ctx args db)
      as [_ [-> | (t & Hfind & ->)]]; [now split|].
    split; now apply map_replaceFirst with (t := t).
Qed.

(** X18. An editTable by an ADMIN on the id of a stored table that
    leaves tableNumber out, or gives it as null, cannot fail: it returns
    the table with the tableNumber and the id it had, and that table is
    what the id finds afterwards. *)
Theorem editTable_keeping_number_succeeds
  (u : User) (args : EditTable.Args) (t : Table) (db : Db) :
  hasRoleIn u [ADMIN] ->
  find (matches (WhereId (EditTable.id args))) (tables db) = Some t ->
  orUndefined (EditTable.tableNumber args) = None ->
  exists t' db',
    editTable (loggedIn u) args db = (inr t', db')
    /\ id t' = id t
    /\ tableNumber t' = tableNumber t
    /\ find (matches (WhereId (EditTable.id args))) (tables db') = Some t'.
Proof.
  intros Hrole Hfind Hnone.
  do 2 eexists. split; [exact (edit_stored u args t db Hrole Hfind Hnone)|].
  split; [reflexivity|]. split.
  - unfold applyUpdate, editData. cbn [tableNumber update_tableNumber].
    now rewrite Hnone.
  - cbn [tables]. apply find_replaceFirst with (t := t); [exact Hfind|].
    exact (proj2 (find_matches _ _ _ Hfind)).
Qed.

Lemma editTable_keeping_number_succeeds_witness :
  hasRoleIn admin [ADMIN]
  /\ find (matches (WhereId "row0")) (tables sampleDb) = Some table7
  /\ exists t' db',
       editTable (loggedIn admin) editWithNulls sampleDb = (inr t', db')
       /\ tableNumber t' = 7%Z.
Proof.
  assert (Hrole : hasRoleIn admin [ADMIN]) by (left; reflexivity).
  split; [exact Hrole|]. split; [reflexivity|].
  destruct (editTable_keeping_number_succeeds admin editWithNulls table7
              sampleDb Hrole eq_refl eq_refl)
    as (t' & db' & Hrun & _ & Hn & _).
  exists t', db'. split; [exact Hrun | exact Hn].
Defined.

(** ** Which errors get out *)



(** ** deleteTable on a stored table *)

Lemma removeFirst_keeps (p : Table -> bool) (x : Table) (l : list Table) :
  In x l -> p x = false -> In x (removeFirst p l).
Proof.
  intros Hin Hp. induction l as [|a l IH]; [contradiction|].
  simpl. destruct Hin as [->|Hin].
  - rewrite Hp. now left.
  - destruct (p a); [assumption | right; now apply IH].
Qed.

Lemma find_removeFirst_id (i : string) (t : Table) (l : list Table) :
  NoDup (map id l) ->
  find (matches (WhereId i)) l = Some t ->
  find (matches (WhereId i)) (removeFirst (matches (WhereId i)) l) = None.
Proof.
  induction l as [|a l IH]; simpl; [discriminate|].
  intros Hnd Hfind. inversion Hnd as [|? ? Hnotin Hrest]; subst.
  destruct (String.eqb (id a) i) eqn:Ha.
  - apply String.eqb_eq in Ha. apply find_unknown_id.
    intros x Hx Hid. apply Hnotin. rewrite Ha, <- Hid. now apply in_map.
  - simpl. rewrite Ha. now apply IH.
Qed.

(** X20. For an ADMIN and the id of a stored table whose deletion the
    relation to the orders permits, deleteTable returns the stored table
    and takes it, and no other table, out of the stored ones. Stored ids
    being pairwise distinct, the id finds nothing afterwards: the same
    deleteTable once more fails with the persistence client's
    record-not-found error and changes no row. *)
Theorem deleteTable_removes_the_table
  (onDeleteTable : string -> list Order.t -> option (list Order.t))
  (u : User) (i : string) (t : Table) (os : list Order.t) (db : Db) :
  hasRoleIn u [ADMIN] ->
  uniqueIds db ->
  find (matches (WhereId i)) (tables db) = Some t ->
  onDeleteTable (id t) (orders db) = Some os ->
  exists db',
    deleteTable onDeleteTable (loggedIn u) (DeleteTable.mk i) db = (inr t, db')
    /\ tables db' = removeFirst (matches (WhereId i)) (tables db)
    /\ orders db' = os
    /\ find (matches (WhereId i)) (tables db') = None
    /\ (forall x, In x (tables db) -> id x <> i -> In x (tables db'))
    /\ deleteTable onDeleteTable (loggedIn u) (DeleteTable.mk i) db'
       = (inl (PrismaClientKnownRequestError "P2025"),
          mkDb (tables db') (orders db') (calls db' ++ [TableDelete])%list).
Proof.
  intros Hrole Hnd Hfind Hallowed.
  pose proof (find_removeFirst_id i t (tables db) Hnd Hfind) as Hgone.
  apply admin_passes in Hrole.
  unfold deleteTable, loggedIn. cbn [user]. rewrite Hrole.
  unfold table_delete, bind, ret. cbn [DeleteTable.id].
  rewrite Hfind, Hallowed. eexists. split; [reflexivity|].
  cbn [tables orders calls]. rewrite Hgone. repeat split.
  intros x Hx Hid. apply removeFirst_keeps; [exact Hx|].
  simpl. now apply String.eqb_neq.
Qed.

Lemma deleteTable_removes_the_table_witness :
  hasRoleIn admin [ADMIN]
  /\ uniqueIds sampleDb
  /\ find (matches (WhereId "row0")) (tables sampleDb) = Some table7
  /\ keepOrders (id table7) (orders sampleDb) = Some [order1]
  /\ exists db',
       deleteTable keepOrders (loggedIn admin) (DeleteTable.mk "row0") sampleDb
       = (inr table7, db')
       /\ tables db' = [table8]
       /\ fst (deleteTable keepOrders (loggedIn admin) (DeleteTable.mk "row0")
                 db')
          = inl (PrismaClientKnownRequestError "P2025").
Proof.
  assert (Hrole : hasRoleIn admin [ADMIN]) by (left; reflexivity).
  assert (Hnd : uniqueIds sampleDb).
  { unfold uniqueIds. simpl. repeat constructor; simpl.
    - intros [H|[]]. discriminate H.
    - tauto. }
  split; [exact Hrole|]. split; [exact Hnd|].
  split; [reflexivity|]. split; [reflexivity|].
  destruct (deleteTable_removes_the_table keepOrders admin "row0" table7
              [order1] sampleDb Hrole Hnd eq_refl eq_refl)
    as (db' & Hrun & Htables & _ & _ & _ & Hagain).
  exists db'. split; [exact Hrun|]. split; [exact Htables|].
  exact (f_equal fst Hagain).
Defined.

(** ** What addOrderToTable stores *)

(** X21. An order that addOrderToTable returns carries the orderNumber,
    cart, userName, userEmail, tableId, serviceFee and total of the call
    as given, and the note, discount and paymentToken given, or none
    where the argument is left out or null: a null is never stored as a
    value. *)
Theorem addOrderToTable_stores_arguments
  (newId : Db -> string) (ctx : Context) (args : AddOrderToTable.Args)
  (db : Db) (o : Order.t) (db' : Db) :
  addOrderToTable newId ctx args db = (inr o, db') ->
  Order.orderNumber o = AddOrderToTable.orderNumber args
  /\ Order.cart o = AddOrderToTable.cart args
  /\ Order.userName o = AddOrderToTable.userName args
  /\ Order.userEmail o = AddOrderToTable.userEmail args
  /\ Order.tableId o = AddOrderToTable.tableId args
  /\ Order.serviceFee o = AddOrderToTable.serviceFee args
  /\ Order.total o = AddOrderToTable.total args
  /\ Order.note o = orUndefined (AddOrderToTable.note args)
  /\ Order.discount o = orUndefined (AddOrderToTable.discount args)
  /\ Order.paymentToken o = orUndefined (AddOrderToTable.paymentToken args).
Proof.
  unfold addOrderToTable. destruct (user ctx) as [u|]; [|discriminate].
  destruct (negb _); [discriminate|].
  unfold table_findUnique, order_create, bind, ret, throw.
  destruct (find _ _); [|discriminate].
  intros [= <- _]. repeat split.
Qed.

Lemma addOrderToTable_stores_arguments_witness :
  exists o db',
    addOrderToTable sampleId (loggedIn waiter) secondOrderOne sampleDb
    = (inr o, db')
    /\ Order.orderNumber o = "ORD-1"
    /\ Order.note o = None
    /\ Order.discount o = None.
Proof.
  assert (Hrun : addOrderToTable sampleId (loggedIn waiter) secondOrderOne
                   sampleDb
                 = (inr (Order.mk "row3" "ORD-1" (JArray [JString "soup"])
                           "Guest" "guest@local" "row0" "PREPARING" 2 None
                           None 12 None),
                    mkDb [table7; table8]
                      [order1;
                       Order.mk "row3" "ORD-1" (JArray [JString "soup"])
                         "Guest" "guest@local" "row0" "PREPARING" 2 None
                         None 12 None]
                      [TableFindUnique; OrderCreate]))
    by reflexivity.
  do 2 eexists. split; [exact Hrun|].
  destruct (addOrderToTable_stores_arguments sampleId (loggedIn waiter)
              secondOrderOne sampleDb _ _ Hrun)
    as (Hnumber & _ & _ & _ & _ & _ & _ & Hnote & Hdiscount & _).
  split; [exact Hnumber|]. split; [exact Hnote | exact Hdiscount].
Defined.

(** ** Roles, once more *)

Lemma no_call_made (l : list PrismaCall) (c : PrismaCall)
  (cs : list PrismaCall) : l <> (l ++ c :: cs)%list.
Proof.
  intros H. rewrite <- (app_nil_r l) in H at 1.
  apply app_inv_head in H. discriminate H.
Qed.

(** X22. The role decides whether a call is let through and nothing
    else: for two users whose roles are both among the roles the operation
    allows, the same operation on the same database has the same outcome,
    result and database alike. *)
Theorem outcome_same_for_authorized_users
  (newId : Db -> string) (positionDefault : option JSON)
  (onDeleteTable : string -> list Order.t -> option (list Order.t))
  (m : Mutation) (u1 u2 : User) (db : Db) :
  hasRoleIn u1 (allowedRoles m) ->
  hasRoleIn u2 (allowedRoles m) ->
  resolve newId positionDefault onDeleteTable (loggedIn u1) m db
  = resolve newId positionDefault onDeleteTable (loggedIn u2) m db.
Proof.
  destruct u1 as [[r1|]], u2 as [[r2|]]; unfold hasRoleIn; simpl;
    try contradiction.
  intros H1 H2.
  destruct m; destruct r1; simpl in H1;
    try (exfalso; intuition discriminate);
    destruct r2; simpl in H2;
    try (exfalso; intuition discriminate);
    reflexivity.
Qed.

Lemma outcome_same_for_authorized_users_witness :
  hasRoleIn waiter (allowedRoles (AddOrderToTableCall secondOrderOne))
  /\ hasRoleIn admin (allowedRoles (AddOrderToTableCall secondOrderOne))
  /\ resolve sampleId None keepOrders (loggedIn waiter)
       (AddOrderToTableCall secondOrderOne) sampleDb
     = resolve sampleId None keepOrders (loggedIn admin)
         (AddOrderToTableCall secondOrderOne) sampleDb.
Proof.
  assert (H1 : hasRoleIn waiter
                 (allowedRoles (AddOrderToTableCall secondOrderOne)))
    by (right; right; left; reflexivity).
  assert (H2 : hasRoleIn admin
                 (allowedRoles (AddOrderToTableCall secondOrderOne)))
    by (left; reflexivity).
  split; [exact H1|]. split; [exact H2|].
  exact (outcome_same_for_authorized_users sampleId None keepOrders
           (AddOrderToTableCall secondOrderOne) waiter admin sampleDb H1 H2).
Defined.

(** X23. The roles are ordered by what they are let through to: an
    ADMIN gets past the authorization of every operation; a call that
    gets a WAITER past it gets a MANAGER past it, and one that gets a
    MANAGER past it gets an ADMIN past it, with the same outcome. *)
Theorem roles_are_ordered
  (newId : Db -> string) (positionDefault : option JSON)
  (onDeleteTable : string -> list Order.t -> option (list Order.t))
  (m : Mutation) (db : Db) :
  pastAuthorization db
    (resolve newId positionDefault onDeleteTable (loggedIn admin) m db)
  /\ (pastAuthorization db
        (resolve newId positionDefault onDeleteTable (loggedIn waiter) m db) ->
      resolve newId positionDefault onDeleteTable (loggedIn manager) m db
      = resolve newId positionDefault onDeleteTable (loggedIn waiter) m db)
  /\ (pastAuthorization db
        (resolve newId positionDefault onDeleteTable (loggedIn manager) m db) ->
      resolve newId positionDefault onDeleteTable (loggedIn admin) m db
      = resolve newId positionDefault onDeleteTable (loggedIn manager) m db).
Proof.
  split; [|split].
  - apply authorized_past_authorization. destruct m; now left.
  - destruct m; try reflexivity;
      intros [[c [cs Hcalls]] _]; exfalso;
      exact (no_call_made _ _ _ Hcalls).
  - destruct m; try reflexivity;
      intros [[c [cs Hcalls]] _]; exfalso;
      exact (no_call_made _ _ _ Hcalls).
Qed.

Lemma roles_are_ordered_witness :
  pastAuthorization sampleDb
    (resolve sampleId None keepOrders (loggedIn waiter)
       (AddOrderToTableCall secondOrderOne) sampleDb)
  /\ resolve sampleId None keepOrders (loggedIn manager)
       (AddOrderToTableCall secondOrderOne) sampleDb
     = resolve sampleId None keepOrders (loggedIn waiter)
         (AddOrderToTableCall secondOrderOne) sampleDb.
Proof.
  assert (Hpast : pastAuthorization sampleDb
                    (resolve sampleId None keepOrders (loggedIn waiter)
                       (AddOrderToTableCall secondOrderOne) sampleDb)).
  { split; [|exact I]. exists TableFindUnique, [OrderCreate]. reflexivity. }
  split; [exact Hpast|].
  exact (proj1 (proj2 (roles_are_ordered sampleId None keepOrders
                         (AddOrderToTableCall secondOrderOne) sampleDb))
           Hpast).
Defined.

(** ** The home page *)

Lemma zone_roles (user : option User) :
  sessionRoleIsNot user "WAITER" && sessionRoleIsNot user "MANAGER" = false
  <-> exists u, user = Some u /\ hasRoleIn u [WAITER; MANAGER].
Proof.
  destruct user as [[[r|]]|]; unfold hasRoleIn; simpl.
  - destruct r; simpl; split;
      try discriminate;
      try (intros _; eexists; split; [reflexivity|]; simpl; now auto);
      intros [u [[= <-] H]]; simpl in H; intuition discriminate.
  - split; [discriminate|]. now intros [u [[= <-] H]].
  - split; [discriminate|]. now intros [u [[=] _]].
Qed.

(** X24. The home page always renders, in this order, the header, the
    side bar, one middle part, the categories, the menu section and the
    footer, the user being handed to the header, the side bar and the
    menu section. The middle part is the restaurant zone exactly for a
    user whose role is WAITER or MANAGER; for every other user, an ADMIN
    and a visitor who is not logged in included, it is the hero section
    followed by the promos. *)
Theorem Home_zone_for_waiter_and_manager (user : option User) :
  (exists middle,
     Home user
     = Main [Header user; SideBar user; middle; Categories; MenuSection user;
             Footer]
     /\ (middle = ZoneRestaurant <->
         exists u, user = Some u /\ hasRoleIn u [WAITER; MANAGER])
     /\ (middle = Fragment [HeroSection; Promos] <->
         ~ exists u, user = Some u /\ hasRoleIn u [WAITER; MANAGER]))
  /\ (In ZoneRestaurant (childrenOf (Home user)) <->
      exists u, user = Some u /\ hasRoleIn u [WAITER; MANAGER]).
Proof.
  pose proof (zone_roles user) as Hzone. unfold Home.
  destruct (sessionRoleIsNot user "WAITER" && sessionRoleIsNot user "MANAGER").
  - assert (Hno : ~ exists u, user = Some u /\ hasRoleIn u [WAITER; MANAGER])
      by (intros H; apply Hzone in H; discriminate H).
    split.
    + eexists. split; [reflexivity|]. split; split; intros H;
        try discriminate H; try contradiction; reflexivity || assumption.
    + simpl. split; [|intros H; contradiction].
      intros H. repeat (destruct H as [H|H]; try discriminate H).
      contradiction.
  - assert (Hyes : exists u, user = Some u /\ hasRoleIn u [WAITER; MANAGER])
      by now apply Hzone.
    split.
    + eexists. split; [reflexivity|]. split; split; intros H;
        try discriminate H; try contradiction; reflexivity || assumption.
    + simpl. split; [now intros _|]. intros _. right. right. now left.
Qed.

Lemma Home_zone_roles_aux (user : option User) :
  (exists u, user = Some u /\ hasRoleIn u [WAITER; MANAGER]) <->
  In ZoneRestaurant (childrenOf (Home user)).
Proof.
  pose proof (zone_roles user) as Hzone. unfold Home.
  destruct (sessionRoleIsNot user "WAITER" && sessionRoleIsNot user "MANAGER");
    simpl.
  - split.
    + intros H. apply Hzone in H. discriminate H.
    + intros H. repeat (destruct H as [H|H]; try discriminate H).
      contradiction.
  - split; [intros _; right; right; now left|].
    intros _. now apply Hzone.
Qed.

(** X25. A user to whom the home page shows the restaurant zone gets past
    the authorization of addOrderToTable, whatever the arguments; and
    editTable, deleteTable and toggleTableReservation refuse every such
    user with their not-authorized error, the database untouched: nobody
    who is shown the zone can edit, delete or reserve a table. *)
Theorem zone_users_add_orders_only
  (newId : Db -> string) (positionDefault : option JSON)
  (onDeleteTable : string -> list Order.t -> option (list Order.t))
  (ctx : Context) :
  In ZoneRestaurant (childrenOf (Home (user ctx))) ->
  (forall args db,
     pastAuthorization db
       (resolve newId positionDefault onDeleteTable ctx
          (AddOrderToTableCall args) db))
  /\ (forall m db,
        adminOnly m = true ->
        resolve newId positionDefault onDeleteTable ctx m db
        = (inl (GraphQLError (notAuthorizedMessage m)), db)).
Proof.
  intros Hzone.
  apply (proj2 (Home_zone_roles_aux (user ctx))) in Hzone.
  destruct Hzone as [u [Hu Hrole]]. destruct ctx as [c]. simpl in Hu.
  subst c. destruct u as [[r|]]; unfold hasRoleIn in Hrole; simpl in Hrole;
    [|contradiction].
  split.
  - intros args db. apply authorized_past_authorization.
    destruct Hrole as [<-|[<-|[]]]; simpl; auto.
  - intros m db Hm. apply unauthorized_forbidden.
    unfold hasRoleIn. simpl.
    destruct m; try discriminate Hm;
      destruct Hrole as [<-|[<-|[]]]; simpl; intuition discriminate.
Qed.

Lemma zone_users_add_orders_only_witness :
  In ZoneRestaurant (childrenOf (Home (user (loggedIn waiter))))
  /\ pastAuthorization sampleDb
       (resolve sampleId None keepOrders (loggedIn waiter)
          (AddOrderToTableCall secondOrderOne) sampleDb)
  /\ resolve sampleId None keepOrders (loggedIn waiter)
       (ToggleTableReservationCall (ToggleTableReservation.mk "row0" true))
       sampleDb
     = (inl (GraphQLError
               "You are not authorized to modify reservation status"),
        sampleDb).
Proof.
  assert (Hzone : In ZoneRestaurant
                    (childrenOf (Home (user (loggedIn waiter)))))
    by (right; right; left; reflexivity).
  destruct (zone_users_add_orders_only sampleId None keepOrders
              (loggedIn waiter) Hzone) as [Hadd Hrefused].
  split; [exact Hzone|]. split.
  - exact (Hadd secondOrderOne sampleDb).
  - exact (Hrefused
             (ToggleTableReservationCall
                (ToggleTableReservation.mk "row0" true))
             sampleDb eq_refl).
Defined.

(** * Two addTable calls at the same time *)

Lemma addTable_in_steps
  (newId : Db -> string) (positionDefault : option JSON)
  (ctx : Context) (args : AddTable.Args) (db : Db) :
  inSequence (addTableSteps newId positionDefault ctx args) db
  = addTable newId positionDefault ctx args db.
Proof.
  unfold inSequence, addTableSteps, addTable. cbn [lookupStep writeStep].
  destruct (user ctx) as [u|]; [|reflexivity].
  destruct (negb _); reflexivity.
Qed.

Lemma advance_due {X A : Type} (s : TwoSteps X A) (p : Progress X A)
  (db : Db) :
  (stepsDue (fst (advance s p db)) <= pred (stepsDue p))%nat.
Proof.
  destruct p as [|x|r]; simpl.
  - destruct (lookupStep s db) as [[e|x] db']; simpl; lia.
  - destruct (writeStep s x db) as [r db']; simpl; lia.
  - lia.
Qed.

Lemma interleave_finishes {X A : Type} (sa sb : TwoSteps X A)
  (schedule : list Caller) :
  forall (pa pb : Progress X A) (db : Db),
    (stepsDue pa <= turns FirstCaller schedule)%nat ->
    (stepsDue pb <= turns SecondCaller schedule)%nat ->
    exists ra rb db',
      interleave sa sb schedule pa pb db = (Finished ra, Finished rb, db').
Proof.
  induction schedule as [|c rest IH]; intros pa pb db Ha Hb.
  - unfold turns in *. simpl in *.
    destruct pa as [|xa|ra]; simpl in Ha; try lia.
    destruct pb as [|xb|rb]; simpl in Hb; try lia.
    now exists ra, rb, db.
  - destruct c; unfold turns in *; simpl in *.
    + pose proof (advance_due sa pa db) as Hdue.
      destruct (advance sa pa db) as [pa' db']. simpl in Hdue.
      apply IH; [lia | exact Hb].
    + pose proof (advance_due sb pb db) as Hdue.
      destruct (advance sb pb db) as [pb' db']. simpl in Hdue.
      apply IH; [exact Ha | lia].
Qed.

Section Race.

Variable newId : Db -> string.
Variable positionDefault : option JSON.

Lemma early_late (p : Progress (option Table) Table) : early p -> late p.
Proof.
  intros [-> | ->]; [now left | right; left; now exists None].
Qed.

Lemma advance_free (u : User) (args : AddTable.Args)
  (p : Progress (option Table) Table) (db : Db) :
  hasRoleIn u [ADMIN; MANAGER] ->
  hasTableNumber (AddTable.tableNumber args) (tables db) = false ->
  early p ->
  (exists db',
     advance (addTableSteps newId positionDefault (loggedIn u) args) p db
     = (LookedUp None, db')
     /\ tables db' = tables db /\ orders db' = orders db)
  \/ (exists t db',
        advance (addTableSteps newId positionDefault (loggedIn u) args) p db
        = (Finished (inr t), db')
        /\ tableNumber t = AddTable.tableNumber args
        /\ tables db' = (tables db ++ [t])%list /\ orders db' = orders db).
Proof.
  intros Hrole Hfree Hearly. apply staff_passes in Hrole.
  unfold advance, addTableSteps, loggedIn. cbn [lookupStep writeStep user].
  rewrite Hrole. destruct Hearly as [->| ->].
  - left. unfold table_findFirst.
    rewrite (proj2 (find_tableNumber _ _) Hfree).
    eexists. repeat split.
  - right. unfold table_create, bind, ret. cbn [create_tableNumber].
    rewrite Hfree. do 2 eexists. repeat split.
Qed.

Lemma advance_taken (u : User) (args : AddTable.Args)
  (p : Progress (option Table) Table) (db : Db) :
  hasRoleIn u [ADMIN; MANAGER] ->
  hasTableNumber (AddTable.tableNumber args) (tables db) = true ->
  late p ->
  exists p' db',
    advance (addTableSteps newId positionDefault (loggedIn u) args) p db
    = (p', db')
    /\ late p' /\ tables db' = tables db /\ orders db' = orders db.
Proof.
  intros Hrole Htaken Hlate. apply staff_passes in Hrole.
  unfold advance, addTableSteps, loggedIn. cbn [lookupStep writeStep user].
  rewrite Hrole. destruct Hlate as [->|[[x ->]|[e [-> Hkind]]]].
  - unfold table_findFirst. do 2 eexists. split; [reflexivity|].
    split; [right; left; eexists; reflexivity|]. now split.
  - destruct x as [t|].
    + unfold throw. do 2 eexists. split; [reflexivity|].
      split; [|now split]. right. right. eexists. split; reflexivity.
    + unfold table_create, bind, ret. cbn [create_tableNumber].
      rewrite Htaken. do 2 eexists. split; [reflexivity|].
      split; [|now split]. right. right. eexists. split; reflexivity.
  - do 2 eexists. split; [reflexivity|]. split; [|now split].
    right. right. now exists e.
Qed.

Variables ua ub : User.
Variables argsA argsB : AddTable.Args.
Hypothesis authorizedA : hasRoleIn ua [ADMIN; MANAGER].
Hypothesis authorizedB : hasRoleIn ub [ADMIN; MANAGER].
Hypothesis sameNumber :
  AddTable.tableNumber argsB = AddTable.tableNumber argsA.

Lemma taken_after (db0 db : Db) (t : Table) :
  tableNumber t = AddTable.tableNumber argsA ->
  tables db = (tables db0 ++ [t])%list ->
  hasTableNumber (AddTable.tableNumber argsA) (tables db) = true.
Proof.
  intros Hn Htables. apply hasTableNumber_true. exists t.
  split; [|exact Hn]. rewrite Htables. apply in_or_app. right. now left.
Qed.

Lemma race_first (db0 : Db) (pa pb : Progress (option Table) Table)
  (db : Db) :
  raceState (AddTable.tableNumber argsA) db0 pa pb db ->
  raceState (AddTable.tableNumber argsA) db0
    (fst (advance (addTableSteps newId positionDefault (loggedIn ua) argsA)
            pa db))
    pb
    (snd (advance (addTableSteps newId positionDefault (loggedIn ua) argsA)
            pa db)).
Proof.
  intros [(Hfree & Ht & Ho & Ha & Hb)
         |[(t & -> & Hn & Ht & Ho & Hb)|(t & -> & Hn & Ht & Ho & Ha)]].
  - destruct (advance_free ua argsA pa db authorizedA Hfree Ha)
      as [(db' & -> & Ht' & Ho')|(t & db' & -> & Hn & Ht' & Ho')]; simpl.
    + left. rewrite Ht', Ho'. repeat split; trivial. now right.
    + right. left. exists t. rewrite Ht', Ho', Ht, Ho.
      repeat split; trivial. now apply early_late.
  - right. left. exists t. simpl. repeat split; trivial.
  - destruct (advance_taken ua argsA pa db authorizedA
                (taken_after db0 db t Hn Ht) Ha)
      as (p' & db' & -> & Hlate & Ht' & Ho'); simpl.
    right. right. exists t. rewrite Ht', Ho'. repeat split; trivial.
Qed.

Lemma race_second (db0 : Db) (pa pb : Progress (option Table) Table)
  (db : Db) :
  raceState (AddTable.tableNumber argsA) db0 pa pb db ->
  raceState (AddTable.tableNumber argsA) db0 pa
    (fst (advance (addTableSteps newId positionDefault (loggedIn ub) argsB)
            pb db))
    (snd (advance (addTableSteps newId positionDefault (loggedIn ub) argsB)
            pb db)).
Proof.
  intros [(Hfree & Ht & Ho & Ha & Hb)
         |[(t & -> & Hn & Ht & Ho & Hb)|(t & -> & Hn & Ht & Ho & Ha)]].
  - rewrite <- sameNumber in Hfree.
    destruct (advance_free ub argsB pb db authorizedB Hfree Hb)
      as [(db' & -> & Ht' & Ho')|(t & db' & -> & Hn & Ht' & Ho')]; simpl.
    + left. rewrite Ht', Ho'. rewrite sameNumber in Hfree.
      repeat split; trivial. now right.
    + right. right. exists t. rewrite Ht', Ho', Ht, Ho.
      repeat split; trivial; [congruence | now apply early_late].
  - pose proof (taken_after db0 db t Hn Ht) as Htaken.
    rewrite <- sameNumber in Htaken.
    destruct (advance_taken ub argsB pb db authorizedB Htaken Hb)
      as (p' & db' & -> & Hlate & Ht' & Ho'); simpl.
    right. left. exists t. rewrite Ht', Ho'. repeat split; trivial.
  - right. right. exists t. simpl. repeat split; trivial.
Qed.

Lemma race_kept (db0 : Db) (schedule : list Caller) :
  forall pa pb db pa' pb' db',
    raceState (AddTable.tableNumber argsA) db0 pa pb db ->
    interleave (addTableSteps newId positionDefault (loggedIn ua) argsA)
      (addTableSteps newId positionDefault (loggedIn ub) argsB)
      schedule pa pb db = (pa', pb', db') ->
    raceState (AddTable.tableNumber argsA) db0 pa' pb' db'.
Proof.
  induction schedule as [|c rest IH]; intros pa pb db pa' pb' db' Hstate Hrun.
  - simpl in Hrun. now injection Hrun as <- <- <-.
  - destruct c; simpl in Hrun.
    + pose proof (race_first db0 pa pb db Hstate) as Hnext.
      destruct (advance _ pa db) as [pa1 db1]. simpl in Hnext.
      exact (IH _ _ _ _ _ _ Hnext Hrun).
    + pose proof (race_second db0 pa pb db Hstate) as Hnext.
      destruct (advance _ pb db) as [pb1 db1]. simpl in Hnext.
      exact (IH _ _ _ _ _ _ Hnext Hrun).
Qed.

Lemma race_over (db0 : Db) (ra rb : Error + Table) (db : Db) :
  raceState (AddTable.tableNumber argsA) db0 (Finished ra) (Finished rb) db ->
  oneSucceedsOtherConflicts ra rb
  /\ exists t,
       tables db = (tables db0 ++ [t])%list
       /\ tableNumber t = AddTable.tableNumber argsA
       /\ orders db = orders db0.
Proof.
  intros [(_ & _ & _ & [Ha|Ha] & _)
         |[(t & Hwon & Hn & Ht & Ho & Hb)|(t & Hwon & Hn & Ht & Ho & Ha)]];
    try discriminate Ha.
  - injection Hwon as ->.
    destruct Hb as [Hb|[[x Hb]|[e [Hlost Hkind]]]]; try discriminate Hb.
    injection Hlost as ->.
    split; [left; now exists t, e | now exists t].
  - injection Hwon as ->.
    destruct Ha as [Ha|[[x Ha]|[e [Hlost Hkind]]]]; try discriminate Ha.
    injection Hlost as ->.
    split; [right; now exists t, e | now exists t].
Qed.

End Race.

Lemma both_lookups_then_both_creates
  (newId : Db -> string) (positionDefault : option JSON)
  (ua ub : User) (argsA argsB : AddTable.Args) (db : Db) :
  hasRoleIn ua [ADMIN; MANAGER] ->
  hasRoleIn ub [ADMIN; MANAGER] ->
  AddTable.tableNumber argsB = AddTable.tableNumber argsA ->
  hasTableNumber (AddTable.tableNumber argsA) (tables db) = false ->
  exists db2 t db4,
    concurrently (addTableSteps newId positionDefault (loggedIn ua) argsA)
      (addTableSteps newId positionDefault (loggedIn ub) argsB)
      [FirstCaller; SecondCaller] db
    = (LookedUp None, LookedUp None, db2)
    /\ concurrently (addTableSteps newId positionDefault (loggedIn ua) argsA)
         (addTableSteps newId positionDefault (loggedIn ub) argsB)
         bothInTurn db
       = (Finished (inr t), Finished (inl P2002), db4).
Proof.
  intros Ha Hb Hsame Hfree.
  apply staff_passes in Ha. apply staff_passes in Hb.
  assert (Hnone : find (fun t => Z.eqb (tableNumber t)
                                   (AddTable.tableNumber argsA)) (tables db)
                  = None) by now apply find_tableNumber.
  unfold concurrently, bothInTurn, interleave, advance, addTableSteps,
    loggedIn.
  cbn [lookupStep writeStep user]. rewrite Ha, Hb, Hsame.
  unfold table_findFirst, table_create, bind, ret.
  cbn [called tables orders calls create_tableNumber].
  rewrite Hnone. cbn -[hasTableNumber find]. rewrite Hfree.
  cbn -[hasTableNumber find].
  assert (Htaken : forall t,
             tableNumber t = AddTable.tableNumber argsA ->
             hasTableNumber (AddTable.tableNumber argsA) (tables db ++ [t])
             = true).
  { intros t Hn. apply hasTableNumber_true. exists t. split; [|exact Hn].
    apply in_or_app. right. now left. }
  rewrite Htaken by reflexivity. cbn -[hasTableNumber find].
  do 3 eexists. split; reflexivity.
Qed.



